(** * gpu.js: the [GPU] facade of [src/gpu.js]

    A shallow embedding of the class [GPU]: construction and backend
    selection, [createKernel], [combineKernels] with the read-back and
    reshaping done by the callable it returns, [execute] and [getCanvas].

    JavaScript numbers that the facade computes with are sizes and indices;
    they are modelled as unbounded integers [Z].  A 32-bit float is never
    computed with, only moved around, and is modelled by its bit pattern. *)

From Stdlib Require Import ZArith Lia Bool Ascii String.
From Stdlib Require Strings.Byte.
From stdpp Require Import base option list strings gmap.

#[local] Set Warnings "-register-all".
Local Open Scope Z_scope.

(** ** JavaScript values, completions and the state monad *)

Module JS.

(** A 32-bit float, as its bit pattern. *)
Definition f32 : Type := Z.

Inductive value : Type :=
| VUndefined
| VNull
| VBool (b : bool)
| VNum (n : Z)
| VStr (s : string)
| VFun (f : nat)                (* a function object the facade never looks into *)
| VHost (h : nat)               (* a host object: a canvas or a WebGL context *)
| VKernel (l : nat)             (* a compiled kernel, an object of the store *)
| VFloats (xs : list f32)       (* a flat sequence of floats *)
| VArray (xs : list value)
| VCombined (id : nat) (lastKernel combinedKernel : value).
                                (* a closure created by combineKernels: the
                                   function object [id], with what it captured *)

(** What a [throw] carries. *)
Inductive exn : Type :=
| Error (message : string)      (* throw new Error(message) *)
| Thrown (s : string)           (* throw 'a string' *)
| TypeError                     (* raised by the runtime *)
| RangeError                    (* raised by the runtime *)
| External (code : nat).        (* raised inside a collaborator *)

Inductive completion (A : Type) : Type :=
| Normal (a : A)
| Throw (e : exn).
Arguments Normal {A} a.
Arguments Throw {A} e.

(** [a[i]] on an array-like: [undefined] out of range. *)
Definition index (a : list value) (i : Z) : value :=
  if i <? 0 then VUndefined else nth (Z.to_nat i) a VUndefined.

Definition lower_ascii (c : ascii) : ascii :=
  let n := nat_of_ascii c in
  if ((65 <=? n) && (n <=? 90))%nat then ascii_of_nat (n + 32) else c.

(** [s.toLowerCase()], on the ASCII letters. *)
Fixpoint toLowerCase (s : string) : string :=
  match s with
  | EmptyString => EmptyString
  | String c s' => String (lower_ascii c) (toLowerCase s')
  end.

Definition quote : string := String (ascii_of_nat 34) EmptyString.

End JS.
Export JS.

(** ** Kernels and the store of objects *)

Module Kernel.

(** The properties of a kernel object that the facade reads or sets. *)
Record t : Type := mk {
  canvas : value;
  webGl : value;
  outputToTexture : bool;
  floatOutput : bool;
  texSize : Z * Z;
  threadDim : Z * Z * Z;
  dimensions : list Z
}.

End Kernel.

(** The state the facade runs in: the kernel objects, what was written to
    the console, what [gl.readPixels] delivers for each context, the number
    of closures created so far, which is the identity of the next one, and
    the longest typed array that the runtime grants in this state. *)
Record State : Type := mkState {
  kernels : gmap nat Kernel.t;
  console : list string;
  pixelsFloat : nat -> Z -> Z -> list f32;
  pixelsBytes : nat -> Z -> Z -> list Byte.byte;
  closures : nat;
  maxLength : Z
}.

Definition M (A : Type) : Type := State -> completion A * State.

Definition ret {A} (a : A) : M A := fun σ => (Normal a, σ).
Definition throw {A} (e : exn) : M A := fun σ => (Throw e, σ).
Definition bind {A B} (m : M A) (k : A -> M B) : M B :=
  fun σ => match m σ with
           | (Normal a, σ') => k a σ'
           | (Throw e, σ') => (Throw e, σ')
           end.
Definition lift {A} (c : completion A) : M A := fun σ => (c, σ).

Notation "'let!' x ':=' m 'in' k" := (bind m (fun x => k))
  (at level 10, x name, m at level 100, k at level 200).
Notation "'do!' m 'in' k" := (bind m (fun _ => k))
  (at level 10, m at level 100, k at level 200).

(** [try { body } catch (e) { handler(e) }] *)
Definition try_catch {A} (body : M A) (handler : exn -> M A) : M A :=
  fun σ => match body σ with
           | (Normal a, σ') => (Normal a, σ')
           | (Throw e, σ') => handler e σ'
           end.

Definition console_warn (msg : string) : M unit :=
  fun σ => (Normal tt,
            mkState (kernels σ) (console σ ++ [msg]) (pixelsFloat σ) (pixelsBytes σ)
                    (closures σ) (maxLength σ)).

(** The creation of a function object: it gets an identity of its own. *)
Definition new_closure (σ : State) : State :=
  mkState (kernels σ) (console σ) (pixelsFloat σ) (pixelsBytes σ)
          (S (closures σ)) (maxLength σ).

Definition fresh_closure : M nat := fun σ => (Normal (closures σ), new_closure σ).

(** ** Runners *)

Module Runner.

Inductive class : Type := CPURunner | WebGLRunner.
Inductive kernelClass : Type := DefaultKernel | WebGLValidatorKernel.

Record settings : Type := mkSettings {
  canvas : value;
  webGl : value
}.

Record t : Type := mk {
  cls : class;
  opts : settings;
  Kernel : kernelClass
}.

(** [new CPURunner(settings)], [new WebGLRunner(settings)] *)
Definition new (c : class) (s : settings) : t := mk c s DefaultKernel.

(** Modelled from the spec: the runner classes are not among the sources;
    the [mode] of a runner is its resolved Mode, [cpu] for the CPU runner
    and the accelerated mode [gpu] for the WebGL runner. *)
Definition mode (r : t) : string :=
  match cls r with
  | CPURunner => "cpu"
  | WebGLRunner => "gpu"
  end.

End Runner.

(** ** The helpers of [utils] that the facade calls *)

Module Utils.

(** Modelled from the spec: [utils.isFunction] is not among the sources;
    it tells whether its argument is a callable value.  Compiled kernels
    are callable. *)
Definition isFunction (v : value) : bool :=
  match v with
  | VFun _ | VKernel _ | VCombined _ _ _ => true
  | _ => false
  end.

Fixpoint chunks {A} (fuel : nat) (part : nat) (array : list A) : list (list A) :=
  match fuel, array with
  | O, _ | _, [] => []
  | S fuel', _ => take part array :: chunks fuel' part (drop part array)
  end.

(** Modelled from the spec: [utils.splitArray] is not among the sources;
    it splits a sequence contiguously, in buffer order, into sequences of
    length [part] each.  The spec fixes it for a positive [part] only. *)
Definition splitArray {A} (array : list A) (part : Z) : list (list A) :=
  chunks (length array) (Z.to_nat part) array.

Inductive promise : Type :=
| Fulfilled (v : value)
| Rejected (e : exn).

(** What the executor of a promise does with its two callbacks. *)
Inductive settlement : Type :=
| Accept (v : value)
| Reject (e : exn).

(** Modelled from the spec: [utils.newPromise] is not among the sources;
    it runs the executor at once, in the caller's thread of control, and
    returns the deferred result handle that the executor settled.  An
    executor that throws settles the handle as a failure. *)
Definition newPromise (executor : M settlement) : M promise :=
  fun σ => match executor σ with
           | (Normal (Accept v), σ') => (Normal (Fulfilled v), σ')
           | (Normal (Reject e), σ') => (Normal (Rejected e), σ')
           | (Throw e, σ') => (Normal (Rejected e), σ')
           end.

End Utils.

(** ** Typed arrays *)

Module TypedArray.

(** The longest typed array that can be created: what the runtime grants,
    and never more than [2^53 - 1], the largest index of the language. *)
Definition limit (σ : State) : Z := Z.min (maxLength σ) 9007199254740991.

(** [new Float32Array(n)]: [n] zeros; a negative length and a length beyond
    the limit are refused with [RangeError]. *)
Definition newFloat32Array (n : Z) : M (list f32) :=
  fun σ => if (n <? 0) || (limit σ <? n) then (Throw RangeError, σ)
           else (Normal (replicate (Z.to_nat n) 0), σ).

(** [new Uint8Array(n)] *)
Definition newUint8Array (n : Z) : M (list Byte.byte) :=
  fun σ => if (n <? 0) || (limit σ <? n) then (Throw RangeError, σ)
           else (Normal (replicate (Z.to_nat n) Byte.x00), σ).

(** [readPixels] writes what it reads at the start of the buffer it is
    given; the buffer keeps its length. *)
Definition fill {A} (buffer data : list A) : list A :=
  take (length buffer) (data ++ drop (length data) buffer).

Definition byteZ (b : Byte.byte) : Z := Z.of_N (Byte.to_N b).

(** [new Float32Array(bytes.buffer)]: four consecutive bytes are the bits
    of one float, least significant byte first. *)
Fixpoint reinterpret (bytes : list Byte.byte) : list f32 :=
  match bytes with
  | b0 :: b1 :: b2 :: b3 :: rest =>
      (byteZ b0 + 256 * byteZ b1 + 65536 * byteZ b2 + 16777216 * byteZ b3)
        :: reinterpret rest
  | _ => []
  end.

(** A relative index of [subarray], clamped to the array. *)
Definition clamp (len i : Z) : Z :=
  if i <? 0 then Z.max (len + i) 0 else Z.min i len.

(** [a.subarray(begin, end)] *)
Definition subarray {A} (a : list A) (begin end_ : Z) : list A :=
  let len := Z.of_nat (length a) in
  let b := clamp len begin in
  let e := clamp len end_ in
  take (Z.to_nat (e - b)) (drop (Z.to_nat b) a).

(** [Float32Array.prototype.slice.call(a)]: a copy of [a] in a new array. *)
Definition slice (a : list f32) : M (list f32) :=
  let! copy := newFloat32Array (Z.of_nat (length a)) in
  ret (fill copy a).

End TypedArray.

(** ** Operations on kernel objects *)

Module KernelOps.

(** A reference outside the store denotes no object. *)
Definition deref (l : nat) : M Kernel.t :=
  fun σ => match kernels σ !! l with
           | Some k => (Normal k, σ)
           | None => (Throw TypeError, σ)
           end.

Definition assign (l : nat) (k : Kernel.t) : M unit :=
  fun σ => (Normal tt,
            mkState (<[l := k]> (kernels σ)) (console σ)
                    (pixelsFloat σ) (pixelsBytes σ) (closures σ) (maxLength σ)).

(** [v.canvas], [v.webGl]: a property read fails on [undefined] and
    [null]; a value that is no kernel has no such property. *)
Definition property (get : Kernel.t -> value) (v : value) : M value :=
  match v with
  | VUndefined | VNull => throw TypeError
  | VKernel l => let! k := deref l in ret (get k)
  | _ => ret VUndefined
  end.

(** The kernel behind a value of which the kernel-only properties
    [texSize], [threadDim] and [dimensions] are indexed. *)
Definition kernel_of (v : value) : M Kernel.t :=
  match v with
  | VKernel l => deref l
  | _ => throw TypeError
  end.

Definition method (set : Kernel.t -> Kernel.t) (this : value) : M value :=
  match this with
  | VKernel l => let! k := deref l in do! assign l (set k) in ret this
  | _ => throw TypeError
  end.

(** Modelled from the spec: the kernel class is not among the sources; a
    kernel exposes setters for its canvas and its context and a mutable
    [outputToTexture]; as the facade chains them, each returns the
    kernel. *)
Definition setCanvas (this : value) (canvas : value) : M value :=
  method (fun k => Kernel.mk canvas (Kernel.webGl k) (Kernel.outputToTexture k)
                     (Kernel.floatOutput k) (Kernel.texSize k)
                     (Kernel.threadDim k) (Kernel.dimensions k)) this.

Definition setWebGl (this : value) (webGl : value) : M value :=
  method (fun k => Kernel.mk (Kernel.canvas k) webGl (Kernel.outputToTexture k)
                     (Kernel.floatOutput k) (Kernel.texSize k)
                     (Kernel.threadDim k) (Kernel.dimensions k)) this.

Definition setOutputToTexture (this : value) (flag : bool) : M value :=
  method (fun k => Kernel.mk (Kernel.canvas k) (Kernel.webGl k) flag
                     (Kernel.floatOutput k) (Kernel.texSize k)
                     (Kernel.threadDim k) (Kernel.dimensions k)) this.

(** [gl.readPixels(0, 0, w, h, gl.RGBA, gl.FLOAT, result)] *)
Definition readPixelsFloat (gl : value) (w h : Z) (result : list f32)
  : M (list f32) :=
  match gl with
  | VHost c => fun σ => (Normal (TypedArray.fill result (pixelsFloat σ c w h)), σ)
  | _ => throw TypeError
  end.

(** [gl.readPixels(0, 0, w, h, gl.RGBA, gl.UNSIGNED_BYTE, bytes)] *)
Definition readPixelsBytes (gl : value) (w h : Z) (bytes : list Byte.byte)
  : M (list Byte.byte) :=
  match gl with
  | VHost c => fun σ => (Normal (TypedArray.fill bytes (pixelsBytes σ c w h)), σ)
  | _ => throw TypeError
  end.

End KernelOps.

(** ** The facade *)

Module GPU.

(** The [settings] argument of the constructor. *)
Record settings : Type := mkSettings {
  s_canvas : value;
  s_webGl : value;
  s_mode : option string       (* [None]: no [mode] property *)
}.

Definition noSettings : settings := mkSettings VUndefined VUndefined None.

Record t : Type := mk {
  canvas : value;
  webGl : value;
  _kernelSynchronousExecutor : value;
  _runner : option Runner.t    (* [None]: the property was never set *)
}.

(** [settings.mode || 'webgl'] *)
Definition mode_or_webgl (m : option string) : string :=
  match m with
  | Some s => if String.eqb s "" then "webgl" else s
  | None => "webgl"
  end.

Definition unsupported_warning : string :=
  "Warning: gpu not supported, falling back to cpu support".

Definition not_defined (mode : string) : string :=
  quote ++ mode ++ quote ++ " mode is not defined".

(** The constructor.  [isWebGlSupported] is the truthiness of
    [utils.isWebGlSupported], the capability probe of the absent [utils];
    [settings0] is [None] when the constructor is called without
    settings. *)
Definition constructor (isWebGlSupported : bool) (settings0 : option settings)
  : M t :=
  let settings := default noSettings settings0 in
  let canvas := s_canvas settings in
  let webGl := s_webGl settings in
  let mode := mode_or_webgl (s_mode settings) in
  let! mode := (if negb isWebGlSupported
                then do! console_warn unsupported_warning in ret "cpu"%string
                else ret mode) in
  let runnerSettings := Runner.mkSettings canvas webGl in
  if String.eqb mode "" then
    ret (mk canvas webGl VNull None)
  else
    let lower := toLowerCase mode in
    if String.eqb lower "cpu" then
      ret (mk canvas webGl VNull
             (Some (Runner.new Runner.CPURunner runnerSettings)))
    else if String.eqb lower "gpu" || String.eqb lower "webgl" then
      ret (mk canvas webGl VNull
             (Some (Runner.new Runner.WebGLRunner runnerSettings)))
    else if String.eqb lower "webgl-validator" then
      ret (mk canvas webGl VNull
             (Some (Runner.mk Runner.WebGLRunner runnerSettings
                      Runner.WebGLValidatorKernel)))
    else
      throw (Error (not_defined mode)).

(** [this._runner], to read a property of it or call a method on it. *)
Definition runner (this : t) : M Runner.t :=
  match _runner this with
  | Some r => ret r
  | None => throw TypeError
  end.

(** [get mode()] *)
Definition mode (this : t) : M string :=
  let! r := runner this in ret (Runner.mode r).

(** [getCanvas()] *)
Definition getCanvas (this : t) : M value :=
  KernelOps.property Kernel.canvas (_kernelSynchronousExecutor this).

(** [Array.apply(null, arguments)]: a single number is a length, anything
    else is the elements. *)
Definition Array_apply (arguments : list value) : completion (list value) :=
  match arguments with
  | [VNum n] =>
      if (0 <=? n) && (n <? 4294967296)
      then Normal (replicate (Z.to_nat n) VUndefined)
      else Throw RangeError
  | _ => Normal arguments
  end.

(** The decoding at the end of a combined call: the nesting follows
    [dimensions.length]; any other length falls off the end of the
    function. *)
Definition reshape (dimensions : list Z) (result : list f32) : value :=
  match dimensions with
  | [_] => VFloats result
  | [d0; _] => VArray (VFloats <$> Utils.splitArray result d0)
  | [d0; d1; _] =>
      let cube := Utils.splitArray result (d0 * d1) in
      VArray ((fun x => VArray (VFloats <$> Utils.splitArray x d0)) <$> cube)
  | _ => VUndefined
  end.

(** The read-back of the last kernel's output, lines 101 to 112. *)
Definition readback (k : Kernel.t) : M (list f32) :=
  let texSize := Kernel.texSize k in
  let gl := Kernel.webGl k in
  if Kernel.floatOutput k then
    let! result := TypedArray.newFloat32Array (texSize.1 * texSize.2 * 4) in
    KernelOps.readPixelsFloat gl texSize.1 texSize.2 result
  else
    let! bytes := TypedArray.newUint8Array (texSize.1 * texSize.2 * 4) in
    let! bytes := KernelOps.readPixelsBytes gl texSize.1 texSize.2 bytes in
    TypedArray.slice (TypedArray.reinterpret bytes).

(** [threadDim[0] * threadDim[1] * threadDim[2]] *)
Definition volume (threadDim : Z * Z * Z) : Z :=
  threadDim.1.1 * threadDim.1.2 * threadDim.2.

(** Lines 101 to 125: what the combined callable does once the combinator
    has returned. *)
Definition decode_last (lastKernel : value) : M value :=
  let! k := KernelOps.kernel_of lastKernel in
  let! result := readback k in
  let result := TypedArray.subarray result 0 (volume (Kernel.threadDim k)) in
  ret (reshape (Kernel.dimensions k) result).

Section Collaborators.

(** The collaborators: the runner's compiler and the invocation of a
    kernel or of any other function, with whatever they do to the
    state. *)
Variable buildKernel : Runner.t -> value -> list (string * value) -> M value.
Variable invoke : value -> list value -> M value.

(** [createKernel(fn, settings)]; the result comes with [this] as the
    call leaves it. *)
Definition createKernel (this : t) (fn : value)
    (settings : option (list (string * value))) : M (value * t) :=
  match fn with
  | VUndefined => throw (Thrown "Missing fn parameter")
  | _ =>
      if negb (Utils.isFunction fn) then throw (Thrown "fn parameter not a function")
      else
        let! r := runner this in
        let! kernel := buildKernel r fn (default [] settings) in
        ret (kernel, mk (canvas this) (webGl this) kernel (_runner this))
  end.

(** [f.apply(thisArg, args)]; a combined callable runs its combinator
    and decodes the last kernel's output. *)
Fixpoint apply (f : value) (args : list value) : M value :=
  match f with
  | VFun _ | VKernel _ => invoke f args
  | VCombined _ lastKernel combinedKernel =>
      do! apply combinedKernel args in
      decode_last lastKernel
  | _ => throw TypeError
  end.

(** The loop of lines 92 to 97, over the indices it visits. *)
Fixpoint configure (arguments : list value) (canvas webGl : value)
    (indices : list Z) : M unit :=
  match indices with
  | [] => ret tt
  | i :: rest =>
      let! k := KernelOps.setCanvas (index arguments i) canvas in
      let! k := KernelOps.setWebGl k webGl in
      do! KernelOps.setOutputToTexture k true in
      configure arguments canvas webGl rest
  end.

(** [combineKernels(...)], on its argument list. *)
Definition combineKernels (this : t) (arguments : list value) : M value :=
  let n := Z.of_nat (length arguments) in
  let lastKernel := index arguments (n - 2) in
  let combinedKernel := index arguments (n - 1) in
  let! m := mode this in
  if String.eqb m "cpu" then ret combinedKernel
  else
    let! canvas := KernelOps.property Kernel.canvas (index arguments 0) in
    let! webGl := KernelOps.property Kernel.webGl (index arguments 0) in
    do! configure arguments canvas webGl (seqZ 0 (n - 1)) in
    let! id := fresh_closure in
    ret (VCombined id lastKernel combinedKernel).

(** The argument array that [execute] builds, line 148. *)
Definition execute_args (arguments : list value) : completion (list value) :=
  if (length arguments =? 1)%nat then Normal [index arguments 0]
  else Array_apply arguments.

(** [execute(...)], on its argument list. *)
Definition execute (this : t) (arguments : list value) : M Utils.promise :=
  let! args := lift (execute_args arguments) in
  Utils.newPromise
    (try_catch
       (let! v := apply (_kernelSynchronousExecutor this) args in
        ret (Utils.Accept v))
       (fun e => ret (Utils.Reject e))).

(** The registration of a function with the compiler of a runner,
    [runner.functionBuilder.addFunction(name, fn, paramTypes, returnType)]. *)
Variable functionBuilder_addFunction :
  Runner.t -> value -> value -> value -> value -> M unit.

(** [addFunction(jsFunction, paramTypes, returnType)] *)
Definition addFunction (this : t) (jsFunction paramTypes returnType : value) : M t :=
  let! r := runner this in
  do! functionBuilder_addFunction r VNull jsFunction paramTypes returnType in
  ret this.

End Collaborators.

End GPU.

(** * Properties *)

(** ** The split of a sequence *)

(** The spec's words for the decoder: [count] sequences of length [part]
    each, taken contiguously in buffer order. *)
Definition spec_split {A} (part count : Z) (buffer : list A) : list (list A) :=
  (fun j => take (Z.to_nat part) (drop (Z.to_nat (j * part)) buffer))
    <$> seqZ 0 count.

(** The decoder in the spec's words: the flat sequence; [d1] sequences of
    length [d0]; [d1 * d2] chunks of length [d0], grouped in [d2] groups of
    [d1] chunks. *)
Definition spec_decode (dimensions : list Z) (buffer : list f32) : value :=
  match dimensions with
  | [_] => VFloats buffer
  | [d0; d1] => VArray (VFloats <$> spec_split d0 d1 buffer)
  | [d0; d1; d2] =>
      VArray ((fun group => VArray (VFloats <$> group))
                <$> spec_split d1 d2 (spec_split d0 (d1 * d2) buffer))
  | _ => VUndefined
  end.

(** The nested indices expected of a buffer [0 .. w*h*d-1]: the element at
    [z], [y], [x] is [x + w * (y + h * z)]. *)
Definition expected_indices (w h d : Z) : value :=
  VArray ((fun z =>
    VArray ((fun y =>
      VFloats ((fun x => x + w * (y + h * z)) <$> seqZ 0 w)) <$> seqZ 0 h))
    <$> seqZ 0 d).


(** The number of floats that the read-back of a kernel's output holds,
    padding of [texSize] included: four per texel when the output is float,
    one per texel (four bytes) otherwise. *)
Definition readable (k : Kernel.t) : Z :=
  let texSize := Kernel.texSize k in
  if Kernel.floatOutput k then texSize.1 * texSize.2 * 4
  else texSize.1 * texSize.2.

(** What the loop of [combineKernels] makes of one kernel, and of the
    store when it has gone over the kernels [ls]. *)
Definition configured (canvas webGl : value) (k : Kernel.t) : Kernel.t :=
  Kernel.mk canvas webGl true (Kernel.floatOutput k) (Kernel.texSize k)
    (Kernel.threadDim k) (Kernel.dimensions k).

Definition configure_all (canvas webGl : value) (ls : list nat)
    (m : gmap nat Kernel.t) : gmap nat Kernel.t :=
  foldl (fun m l => alter (configured canvas webGl) l m) m ls.

Definition with_kernels (σ : State) (m : gmap nat Kernel.t) : State :=
  mkState m (console σ) (pixelsFloat σ) (pixelsBytes σ) (closures σ) (maxLength σ).

(** The state after the constructor's warning. *)
Definition warned (σ : State) : State :=
  mkState (kernels σ) (console σ ++ [GPU.unsupported_warning])
          (pixelsFloat σ) (pixelsBytes σ) (closures σ) (maxLength σ).

(** The mode strings that the constructor's [switch] has a case for. *)
Definition recognized (mode : string) : bool :=
  String.eqb mode "cpu" || String.eqb mode "gpu" || String.eqb mode "webgl"
  || String.eqb mode "webgl-validator".

(** The spec's [InvalidArgumentError]: what [createKernel] throws at a
    missing or non-callable [fn]. *)
Definition InvalidArgumentError (e : exn) : Prop :=
  e = Thrown "Missing fn parameter" \/ e = Thrown "fn parameter not a function".

(** A checked error is one that a [throw] statement of the facade raises,
    as opposed to one the runtime raises at a failed dereference. *)
Definition checked (e : exn) : bool :=
  match e with
  | Error _ | Thrown _ => true
  | _ => false
  end.

(** ** Sample data *)

Module Sample.

Definition kernelA : Kernel.t :=
  Kernel.mk (VHost 1) (VHost 2) false false (2, 2) (3, 1, 1) [3].

Definition kernelB : Kernel.t :=
  Kernel.mk (VHost 3) (VHost 4) false true (2, 1) (3, 2, 1) [3; 2].

Definition bytes16 : list Byte.byte :=
  [Byte.x01; Byte.x00; Byte.x00; Byte.x00; Byte.x02; Byte.x00; Byte.x00; Byte.x00;
   Byte.x03; Byte.x00; Byte.x00; Byte.x00; Byte.x04; Byte.x00; Byte.x00; Byte.x00].

Definition state : State :=
  mkState (<[0%nat := kernelA]> (<[1%nat := kernelB]> ∅)) []
          (fun _ _ _ => seqZ 100 8) (fun _ _ _ => bytes16) 0 1073741824.

(** A kernel of three dimensions with float output, and a state that has it
    at reference 2. *)
Definition kernelC : Kernel.t :=
  Kernel.mk (VHost 5) (VHost 6) false true (2, 2) (2, 2, 2) [2; 2; 2].

Definition state3 : State :=
  with_kernels state (<[2%nat := kernelC]> (kernels state)).

Definition webgl : GPU.t :=
  GPU.mk VUndefined VUndefined VNull
    (Some (Runner.new Runner.WebGLRunner (Runner.mkSettings VUndefined VUndefined))).

Definition cpu : GPU.t :=
  GPU.mk VUndefined VUndefined VNull
    (Some (Runner.new Runner.CPURunner (Runner.mkSettings VUndefined VUndefined))).

(** A collaborator that does nothing and returns [undefined]. *)
Definition idle (f : value) (args : list value) : M value := ret VUndefined.

(** A function builder that takes every registration. *)
Definition builder (r : Runner.t) (name fn paramTypes returnType : value) : M unit :=
  ret tt.

(** A compiler that hands out the kernel at reference 0. *)
Definition compiler (r : Runner.t) (fn : value) (settings : list (string * value))
  : M value := ret (VKernel 0).

End Sample.

Ltac not_negative := symmetry; apply Z.ltb_ge; lia.

Section Chunks.
Local Open Scope nat_scope.
Context {A : Type}.
Implicit Types (l : list A) (n fuel j : nat).

Lemma chunks_lookup n : 0 < n -> forall fuel l j,
  length l <= fuel ->
  Utils.chunks fuel n l !! j =
    if decide (j * n < length l) then Some (take n (drop (j * n) l)) else None.
Proof.
  intros Hn. induction fuel as [|fuel IH]; intros l j Hl.
  - destruct l; [|simpl in Hl; lia].
    rewrite decide_False by (simpl; lia). by destruct j.
  - destruct l as [|x l].
    { rewrite decide_False by (simpl; lia). by destruct j. }
    change (Utils.chunks (S fuel) n (x :: l))
      with (take n (x :: l) :: Utils.chunks fuel n (drop n (x :: l))).
    destruct j as [|j].
    + rewrite decide_True by (simpl; lia). done.
    + rewrite lookup_cons_ne_0 by done. simpl pred.
      rewrite IH by (rewrite length_drop; simpl in *; lia).
      rewrite length_drop, drop_drop.
      replace (S j * n) with (n + j * n) by lia.
      repeat case_decide; try done; simpl in *; lia.
Qed.

Lemma splitArray_lookup l (part : Z) j : (0 < part)%Z ->
  Utils.splitArray l part !! j =
    if decide (j * Z.to_nat part < length l)
    then Some (take (Z.to_nat part) (drop (j * Z.to_nat part) l)) else None.
Proof. intros. unfold Utils.splitArray. apply chunks_lookup; lia. Qed.

Lemma spec_split_lookup l (part count : Z) j : (0 <= part)%Z ->
  spec_split part count l !! j =
    if decide (Z.of_nat j < count)%Z
    then Some (take (Z.to_nat part) (drop (j * Z.to_nat part) l)) else None.
Proof.
  intros. unfold spec_split. rewrite list_lookup_fmap. case_decide.
  - rewrite lookup_seqZ_lt by done. simpl.
    by rewrite Z.add_0_l, Z2Nat.inj_mul, Nat2Z.id by lia.
  - by rewrite lookup_seqZ_ge by lia.
Qed.

Lemma length_spec_split l (part count : Z) :
  length (spec_split part count l) = Z.to_nat count.
Proof. unfold spec_split. by rewrite length_fmap, length_seqZ. Qed.

(** On a buffer of [part * count] elements the split of the code is the
    split of the spec. *)
Lemma splitArray_spec_split l (part count : Z) :
  (0 < part)%Z -> (0 <= count)%Z -> Z.of_nat (length l) = (part * count)%Z ->
  Utils.splitArray l part = spec_split part count l.
Proof.
  intros Hp Hc Hl. apply list_eq. intros j.
  rewrite splitArray_lookup, spec_split_lookup by lia.
  repeat case_decide; try done; nia.
Qed.

End Chunks.

Section Groups.
Local Open Scope nat_scope.
Context {A : Type}.
Implicit Types (l : list A).

Lemma take_drop_take l a b c :
  a + b <= c -> take a (drop b (take c l)) = take a (drop b l).
Proof.
  intros. rewrite !take_drop_commute, take_take. f_equal. f_equal. lia.
Qed.

(** Splitting in slabs of [d0 * d1] and each slab in rows of [d0], as the
    code does, is splitting in rows of [d0] and grouping the rows by [d1],
    as the spec has it. *)
Lemma splitArray_groups l (d0 d1 d2 : Z) :
  (0 < d0)%Z -> (0 < d1)%Z -> (0 <= d2)%Z ->
  Z.of_nat (length l) = (d0 * d1 * d2)%Z ->
  (fun x => Utils.splitArray x d0) <$> Utils.splitArray l (d0 * d1) =
  spec_split d1 d2 (spec_split d0 (d1 * d2) l).
Proof.
  intros H0 H1 H2 Hl.
  destruct (Z_of_nat_complete d0) as [n0 ->]; [lia|].
  destruct (Z_of_nat_complete d1) as [n1 ->]; [lia|].
  destruct (Z_of_nat_complete d2) as [n2 ->]; [lia|].
  assert (Hlen : length l = n0 * n1 * n2) by lia.
  assert (0 < n0) by lia. assert (0 < n1) by lia. clear Hl H0 H1 H2.
  apply list_eq. intros j.
  rewrite list_lookup_fmap, splitArray_lookup, spec_split_lookup by lia.
  rewrite <- !Nat2Z.inj_mul, !Nat2Z.id, Hlen.
  assert (0 < n0 * n1) by nia.
  destruct (decide (j < n2)) as [Hj|Hj].
  2: { assert (n2 * (n0 * n1) <= j * (n0 * n1))
         by (apply Nat.mul_le_mono_r; lia).
       rewrite !decide_False by lia. done. }
  assert (S j * (n0 * n1) <= n2 * (n0 * n1))
    by (apply Nat.mul_le_mono_r; lia).
  rewrite !decide_True by lia.
  simpl. f_equal. apply list_eq. intros i.
  assert (Hx : length (take (n0 * n1) (drop (j * (n0 * n1)) l)) = n0 * n1).
  { rewrite length_take, length_drop. nia. }
  rewrite splitArray_lookup by lia. rewrite Nat2Z.id, Hx.
  destruct (decide (i < n1)) as [Hi|Hi].
  - rewrite decide_True by nia.
    rewrite lookup_take_lt, lookup_drop by done.
    rewrite spec_split_lookup by lia. rewrite Nat2Z.id.
    rewrite decide_True by nia.
    rewrite take_drop_take by nia. rewrite drop_drop.
    do 3 f_equal. lia.
  - rewrite decide_False by nia.
    by rewrite lookup_take_ge by lia.
Qed.

End Groups.

Section Synthetic.
Local Open Scope nat_scope.

Lemma take_drop_seqZ (k w n : nat) : k + w <= n ->
  take w (drop k (seqZ 0 (Z.of_nat n))) = seqZ (Z.of_nat k) (Z.of_nat w).
Proof.
  intros Hk. apply list_eq. intros i. destruct (decide (i < w)).
  - rewrite lookup_take_lt, lookup_drop, !lookup_seqZ_lt by lia.
    f_equal. lia.
  - by rewrite lookup_take_ge, lookup_seqZ_ge by lia.
Qed.

(** The rows of the buffer [0 .. w*h*d-1], grouped: row [y] of group [z]
    holds [x + w * (y + h * z)] at [x]. *)
Lemma spec_split_indices (w h d : Z) :
  (0 < w)%Z -> (0 <= h)%Z -> (0 <= d)%Z ->
  spec_split h d (spec_split w (h * d) (seqZ 0 (w * h * d))) =
  (fun z => (fun y => (fun x => x + w * (y + h * z))%Z <$> seqZ 0 w)
              <$> seqZ 0 h) <$> seqZ 0 d.
Proof.
  intros Hw Hh Hd.
  destruct (Z_of_nat_complete w) as [n0 ->]; [lia|].
  destruct (Z_of_nat_complete h) as [n1 ->]; [lia|].
  destruct (Z_of_nat_complete d) as [n2 ->]; [lia|].
  apply list_eq. intros z.
  rewrite spec_split_lookup, list_lookup_fmap by lia.
  destruct (decide (z < n2)) as [Hz|Hz].
  2: { rewrite decide_False, lookup_seqZ_ge by lia. done. }
  rewrite decide_True, lookup_seqZ_lt by lia.
  simpl. f_equal. rewrite Nat2Z.id. apply list_eq. intros y.
  rewrite list_lookup_fmap.
  destruct (decide (y < n1)) as [Hy|Hy].
  2: { rewrite lookup_take_ge, lookup_seqZ_ge by lia. done. }
  rewrite lookup_take_lt, lookup_drop, lookup_seqZ_lt by lia.
  rewrite spec_split_lookup by lia.
  assert (S z * n1 <= n2 * n1) by (apply Nat.mul_le_mono_r; lia).
  rewrite decide_True by lia.
  simpl. f_equal. rewrite Nat2Z.id, <- !Nat2Z.inj_mul.
  assert (S (z * n1 + y) * n0 <= n1 * n2 * n0)
    by (apply Nat.mul_le_mono_r; lia).
  rewrite take_drop_seqZ by lia.
  replace (Z.of_nat ((z * n1 + y) * n0))
    with (Z.of_nat ((z * n1 + y) * n0) + 0)%Z by lia.
  rewrite <- fmap_add_seqZ. apply list_fmap_ext. intros _ x _. lia.
Qed.

End Synthetic.

Lemma spec_split_Forall_length {A} (l : list A) (part count : Z) :
  0 <= part -> part * count <= Z.of_nat (length l) ->
  Forall (fun row => Z.of_nat (length row) = part) (spec_split part count l).
Proof.
  intros Hp Hl. apply Forall_lookup_2. intros j row.
  rewrite spec_split_lookup by done. case_decide as Hj; [|done].
  intros [= <-]. rewrite length_take, length_drop.
  assert (Z.of_nat (S j) * part <= count * part)
    by (apply Z.mul_le_mono_nonneg_r; lia).
  rewrite Nat2Z.inj_min, Nat2Z.inj_sub, Nat2Z.inj_mul, Z2Nat.id by nia.
  lia.
Qed.

(** ** C1: the decoder *)

(** C1.  The nesting of the decoded result follows the length of the final
    kernel's [dimensions]: for one dimension the flat sequence is returned as
    it is; for two, [d1] sequences of length [d0] each, taken contiguously in
    buffer order; for three, the result is what splitting the buffer into
    [d1 * d2] chunks of length [d0] and grouping the chunks into [d2] groups
    of [d1] gives; and the buffer [0 .. w*h*d-1] decodes to the nested
    indices [x + w * (y + h * z)]. *)
Theorem reshape_follows_dimensions (d0 d1 d2 : Z) (flat rows cube : list f32) :
  0 < d0 -> 0 < d1 -> 0 < d2 ->
  Z.of_nat (length rows) = d0 * d1 ->
  Z.of_nat (length cube) = d0 * d1 * d2 ->
  GPU.reshape [d0] flat = VFloats flat
  /\ (GPU.reshape [d0; d1] rows = spec_decode [d0; d1] rows
      /\ length (spec_split d0 d1 rows) = Z.to_nat d1
      /\ Forall (fun row => Z.of_nat (length row) = d0) (spec_split d0 d1 rows))
  /\ (GPU.reshape [d0; d1; d2] cube = spec_decode [d0; d1; d2] cube
      /\ length (spec_split d0 (d1 * d2) cube) = Z.to_nat (d1 * d2)
      /\ Forall (fun chunk => Z.of_nat (length chunk) = d0)
           (spec_split d0 (d1 * d2) cube)
      /\ length (spec_split d1 d2 (spec_split d0 (d1 * d2) cube)) = Z.to_nat d2
      /\ Forall (fun group => Z.of_nat (length group) = d1)
           (spec_split d1 d2 (spec_split d0 (d1 * d2) cube)))
  /\ GPU.reshape [d0; d1; d2] (seqZ 0 (d0 * d1 * d2)) = expected_indices d0 d1 d2.
Proof.
  intros H0 H1 H2 Hrows Hcube.
  assert (Hgroups : forall l : list f32,
    Z.of_nat (length l) = d0 * d1 * d2 ->
    GPU.reshape [d0; d1; d2] l = spec_decode [d0; d1; d2] l).
  { intros l Hl. unfold GPU.reshape, spec_decode.
    rewrite <- (splitArray_groups l d0 d1 d2) by lia.
    by rewrite <- list_fmap_compose. }
  split; [done|]. split; [|split].
  - split; [|split].
    + unfold GPU.reshape, spec_decode.
      by rewrite (splitArray_spec_split rows d0 d1) by lia.
    + apply length_spec_split.
    + apply spec_split_Forall_length; lia.
  - split; [by apply Hgroups|]. split; [apply length_spec_split|].
    split; [apply spec_split_Forall_length; lia|].
    split; [apply length_spec_split|].
    apply spec_split_Forall_length; [lia|].
    rewrite length_spec_split. lia.
  - rewrite Hgroups by (rewrite length_seqZ; lia).
    unfold spec_decode, expected_indices.
    rewrite spec_split_indices by lia.
    rewrite <- list_fmap_compose. f_equal. apply list_fmap_ext.
    intros _ z _. simpl. by rewrite <- list_fmap_compose.
Qed.

Example reshape_cube :
  GPU.reshape [2; 2; 2] [10; 11; 12; 13; 14; 15; 16; 17] =
  VArray [VArray [VFloats [10; 11]; VFloats [12; 13]];
          VArray [VFloats [14; 15]; VFloats [16; 17]]].
Proof. reflexivity. Qed.

Lemma reshape_follows_dimensions_witness :
  (0 < 3 /\ 0 < 2 /\ 0 < 2
   /\ Z.of_nat (length (seqZ 10 6)) = 3 * 2
   /\ Z.of_nat (length (seqZ 20 12)) = 3 * 2 * 2)
  /\ GPU.reshape [3; 2] (seqZ 10 6) = spec_decode [3; 2] (seqZ 10 6)
  /\ GPU.reshape [3; 2; 2] (seqZ 20 12) = spec_decode [3; 2; 2] (seqZ 20 12)
  /\ GPU.reshape [3; 2; 2] (seqZ 0 (3 * 2 * 2)) = expected_indices 3 2 2.
Proof.
  assert (Hyp : 0 < 3 /\ 0 < 2 /\ 0 < 2
   /\ Z.of_nat (length (seqZ 10 6)) = 3 * 2
   /\ Z.of_nat (length (seqZ 20 12)) = 3 * 2 * 2)
    by (repeat split; reflexivity).
  split; [exact Hyp|].
  destruct Hyp as (H0 & H1 & H2 & Hr & Hc).
  destruct (reshape_follows_dimensions 3 2 2 [] (seqZ 10 6) (seqZ 20 12)
              H0 H1 H2 Hr Hc) as (_ & (E2 & _) & (E3 & _) & E).
  exact (conj E2 (conj E3 E)).
Defined.

(** ** C2: the truncation of the read-back *)

Lemma length_fill {A} (buffer data : list A) :
  length (TypedArray.fill buffer data) = length buffer.
Proof.
  unfold TypedArray.fill. rewrite length_take, length_app, length_drop. lia.
Qed.

Lemma length_reinterpret (n : nat) : forall bytes,
  length bytes = (4 * n)%nat -> length (TypedArray.reinterpret bytes) = n.
Proof.
  induction n as [|n IH]; intros bytes Hb.
  - by destruct bytes.
  - destruct bytes as [|b0 [|b1 [|b2 [|b3 rest]]]]; simpl in Hb; try lia.
    simpl. f_equal. apply IH. lia.
Qed.


Lemma fill_same_length {A} (buffer data : list A) :
  length buffer = length data -> TypedArray.fill buffer data = data.
Proof.
  intros Hlen. unfold TypedArray.fill.
  rewrite (drop_ge buffer) by lia. rewrite app_nil_r. apply take_ge. lia.
Qed.

(** The read-back in closed form: the allocation comes first, the context
    second. *)
Lemma readback_eq (k : Kernel.t) (σ : State) :
  GPU.readback k σ =
  let w := (Kernel.texSize k).1 in
  let h := (Kernel.texSize k).2 in
  if (w * h * 4 <? 0) || (TypedArray.limit σ <? w * h * 4)
  then (Throw RangeError, σ)
  else match Kernel.webGl k with
       | VHost c =>
           (Normal
              (if Kernel.floatOutput k
               then TypedArray.fill (replicate (Z.to_nat (w * h * 4)) 0)
                      (pixelsFloat σ c w h)
               else TypedArray.reinterpret
                      (TypedArray.fill (replicate (Z.to_nat (w * h * 4)) Byte.x00)
                         (pixelsBytes σ c w h))), σ)
       | _ => (Throw TypeError, σ)
       end.
Proof.
  cbv zeta. unfold GPU.readback.
  set (w := (Kernel.texSize k).1). set (h := (Kernel.texSize k).2).
  unfold TypedArray.newFloat32Array, TypedArray.newUint8Array, bind.
  destruct (Kernel.floatOutput k); cbv beta;
    destruct ((w * h * 4 <? 0) || (TypedArray.limit σ <? w * h * 4)) eqn:Hsize;
    try done.
  - unfold KernelOps.readPixelsFloat, throw. by destruct (Kernel.webGl k).
  - apply orb_false_elim in Hsize as [Hneg Hbig].
    apply Z.ltb_ge in Hneg. apply Z.ltb_ge in Hbig.
    unfold KernelOps.readPixelsBytes, throw.
    destruct (Kernel.webGl k); try done.
    unfold TypedArray.slice, bind, ret, TypedArray.newFloat32Array.
    set (bytes := TypedArray.fill _ _).
    assert (Hlen : length (TypedArray.reinterpret bytes) = Z.to_nat (w * h)).
    { apply length_reinterpret. unfold bytes.
      rewrite length_fill, length_replicate. lia. }
    rewrite Hlen.
    replace ((Z.of_nat (Z.to_nat (w * h)) <? 0)
             || (TypedArray.limit σ <? Z.of_nat (Z.to_nat (w * h))))
      with false.
    + rewrite fill_same_length; [done|]. by rewrite length_replicate, Nat2Z.id.
    + symmetry. apply orb_false_intro; [apply Z.ltb_ge | apply Z.ltb_ge]; lia.
Qed.

Lemma readback_length (k : Kernel.t) (c : nat) (σ : State) :
  Kernel.webGl k = VHost c ->
  0 <= (Kernel.texSize k).1 * (Kernel.texSize k).2 * 4 <= TypedArray.limit σ ->
  exists buffer, GPU.readback k σ = (Normal buffer, σ)
                 /\ Z.of_nat (length buffer) = readable k.
Proof.
  intros Hgl Hsize. rewrite readback_eq. cbv zeta.
  replace (((Kernel.texSize k).1 * (Kernel.texSize k).2 * 4 <? 0)
           || (TypedArray.limit σ <? (Kernel.texSize k).1 * (Kernel.texSize k).2 * 4))
    with false
    by (symmetry; apply orb_false_intro; apply Z.ltb_ge; lia).
  rewrite Hgl. eexists. split; [done|]. unfold readable.
  destruct (Kernel.floatOutput k).
  - rewrite length_fill, length_replicate. lia.
  - rewrite (length_reinterpret
               (Z.to_nat ((Kernel.texSize k).1 * (Kernel.texSize k).2))).
    + lia.
    + rewrite length_fill, length_replicate. lia.
Qed.




Example combined_call_cube :
  readable Sample.kernelC = 16
  /\ GPU.apply Sample.idle (VCombined 9 (VKernel 2) (VFun 0)) [] Sample.state3 =
       (Normal (VArray [VArray [VFloats [100; 101]; VFloats [102; 103]];
                        VArray [VFloats [104; 105]; VFloats [106; 107]]]),
        Sample.state3).
Proof. split; reflexivity. Qed.

Example combined_call_bytes :
  GPU.apply Sample.idle (VCombined 0 (VKernel 0) (VFun 0)) [VNum 5] Sample.state =
  (Normal (VFloats [1; 2; 3]), Sample.state).
Proof. reflexivity. Qed.

Example combined_call_float :
  GPU.apply Sample.idle (VCombined 0 (VKernel 1) (VFun 0)) [] Sample.state =
  (Normal (VArray [VFloats [100; 101; 102]; VFloats [103; 104; 105]]), Sample.state).
Proof. reflexivity. Qed.

(** ** C3 and C10: what [combineKernels] configures *)

Lemma configured_idemp (c w : value) (k : Kernel.t) :
  configured c w (configured c w k) = configured c w k.
Proof. done. Qed.

Lemma lookup_configure_all (c w : value) (ls : list nat) :
  forall (m : gmap nat Kernel.t) (l : nat),
  configure_all c w ls m !! l =
    if decide (l ∈ ls) then configured c w <$> m !! l else m !! l.
Proof.
  induction ls as [|l0 ls IH]; intros m l.
  - rewrite decide_False by apply not_elem_of_nil. done.
  - change (configure_all c w (l0 :: ls) m)
      with (configure_all c w ls (alter (configured c w) l0 m)).
    rewrite IH, lookup_alter.
    destruct (decide (l0 = l)) as [->|Hne].
    + rewrite (decide_True (P := l ∈ l :: ls)) by apply list_elem_of_here.
      case_decide; [|done].
      rewrite <- option_fmap_compose. apply option_fmap_ext. intros k. done.
    + destruct (decide (l ∈ ls)) as [Hin|Hin].
      * rewrite decide_True by (by apply list_elem_of_further). done.
      * rewrite decide_False; [done|]. rewrite elem_of_cons. by intros [?|?].
Qed.

(** One turn of the loop on a kernel of the store. *)
Lemma configure_one (c w : value) (l : nat) (k : Kernel.t) (σ : State)
    (rest : M unit) :
  kernels σ !! l = Some k ->
  (let! k1 := KernelOps.setCanvas (VKernel l) c in
   let! k2 := KernelOps.setWebGl k1 w in
   do! KernelOps.setOutputToTexture k2 true in rest) σ =
  rest (with_kernels σ (alter (configured c w) l (kernels σ))).
Proof.
  intros Hk.
  unfold KernelOps.setCanvas, KernelOps.setWebGl, KernelOps.setOutputToTexture,
    KernelOps.method, KernelOps.deref, KernelOps.assign, bind, ret.
  rewrite Hk. simpl. rewrite lookup_insert_eq. simpl. rewrite lookup_insert_eq.
  simpl. rewrite !insert_insert_eq. f_equal. unfold with_kernels. f_equal.
  apply map_eq. intros l'. rewrite lookup_alter, lookup_insert.
  case_decide; [subst; by rewrite Hk | done].
Qed.

Lemma configure_run (arguments : list value) (c w : value) :
  forall (indices : list Z) (ls : list nat) (σ : State),
  Forall2 (fun i l => index arguments i = VKernel l) indices ls ->
  Forall (fun l => is_Some (kernels σ !! l)) ls ->
  GPU.configure arguments c w indices σ =
    (Normal tt, with_kernels σ (configure_all c w ls (kernels σ))).
Proof.
  intros indices ls σ Hidx. revert σ.
  induction Hidx as [|i l indices ls Hi _ IH]; intros σ Hls.
  - by destruct σ.
  - apply Forall_cons in Hls as [[k Hk] Hls].
    cbn [GPU.configure]. rewrite Hi.
    rewrite (configure_one c w l k σ _ Hk).
    rewrite IH; [done|].
    eapply Forall_impl; [exact Hls|]. intros l' [k' Hk']. simpl.
    rewrite lookup_alter. case_decide; subst; rewrite ?Hk; eauto.
Qed.

(** The loop visits exactly the kernels listed before the combinator. *)
Lemma indices_of_kernels (ls : list nat) (f : value) :
  Forall2 (fun i l => index ((VKernel <$> ls) ++ [f]) i = VKernel l)
    (seqZ 0 (Z.of_nat (length ((VKernel <$> ls) ++ [f])) - 1)) ls.
Proof.
  rewrite length_app, length_fmap. simpl length.
  replace (Z.of_nat (length ls + 1) - 1) with (Z.of_nat (length ls)) by lia.
  apply Forall2_same_length_lookup_2.
  - by rewrite length_seqZ, Nat2Z.id.
  - intros j i l Hi Hl. apply lookup_seqZ in Hi as [-> Hj].
    unfold index. replace (0 + Z.of_nat j <? 0) with false by lia.
    rewrite Z.add_0_l, Nat2Z.id, nth_lookup.
    rewrite lookup_app_l by (rewrite length_fmap; lia).
    by rewrite list_lookup_fmap, Hl.
Qed.

Lemma index_last (ks : list value) (f : value) :
  index (ks ++ [f]) (Z.of_nat (length (ks ++ [f])) - 1) = f.
Proof.
  rewrite length_app. simpl length. unfold index.
  replace (Z.of_nat (length ks + 1) - 1 <? 0) with false by not_negative.
  replace (Z.to_nat (Z.of_nat (length ks + 1) - 1)) with (length ks) by lia.
  rewrite nth_lookup. by rewrite list_lookup_middle.
Qed.

Lemma index_last_kernel (ls : list nat) (lN : nat) (f : value) :
  last ls = Some lN ->
  index ((VKernel <$> ls) ++ [f])
    (Z.of_nat (length ((VKernel <$> ls) ++ [f])) - 2) = VKernel lN.
Proof.
  intros Hlast. rewrite last_lookup in Hlast.
  assert (length ls <> 0%nat) by (intros E; rewrite E in Hlast; by destruct ls).
  rewrite length_app, length_fmap. simpl length. unfold index.
  replace (Z.of_nat (length ls + 1) - 2 <? 0) with false by not_negative.
  replace (Z.to_nat (Z.of_nat (length ls + 1) - 2)) with (pred (length ls)) by lia.
  rewrite nth_lookup, lookup_app_l by (rewrite length_fmap; lia).
  by rewrite list_lookup_fmap, Hlast.
Qed.

(** In a mode other than [cpu], on kernels of the store followed by a
    combinator: the call returns the combined callable, and leaves the store
    as the loop made it, with the canvas and the context of the first
    kernel. *)
Lemma combineKernels_run (this : GPU.t) (m : string) (l0 lN : nat)
    (rest : list nat) (k0 : Kernel.t) (f : value) (σ : State) :
  GPU.mode this σ = (Normal m, σ) ->
  m <> "cpu"%string ->
  kernels σ !! l0 = Some k0 ->
  Forall (fun l => is_Some (kernels σ !! l)) (l0 :: rest) ->
  last (l0 :: rest) = Some lN ->
  GPU.combineKernels this ((VKernel <$> l0 :: rest) ++ [f]) σ =
    (Normal (VCombined (closures σ) (VKernel lN) f),
     new_closure
       (with_kernels σ
          (configure_all (Kernel.canvas k0) (Kernel.webGl k0) (l0 :: rest)
             (kernels σ)))).
Proof.
  intros Hmode Hm Hk0 Hall Hlast. unfold GPU.combineKernels.
  rewrite index_last, (index_last_kernel _ lN) by done.
  unfold bind at 1. rewrite Hmode.
  apply String.eqb_neq in Hm. rewrite Hm.
  change (index ((VKernel <$> l0 :: rest) ++ [f]) 0) with (VKernel l0).
  unfold KernelOps.property, KernelOps.deref, bind, ret. rewrite !Hk0.
  rewrite (configure_run _ _ _ _ (l0 :: rest)); [done | | done].
  apply indices_of_kernels.
Qed.

(** C3 as stated fails: the loop runs over every argument before the
    combinator, the last kernel included, so the last kernel's
    [outputToTexture] is forced as well. *)
Lemma combineKernels_last_forced_counterexample :
  Kernel.outputToTexture <$> kernels Sample.state !! 1%nat = Some false
  /\ Kernel.outputToTexture <$>
       kernels (GPU.combineKernels Sample.webgl [VKernel 0; VKernel 1; VFun 7]
                  Sample.state).2 !! 1%nat = Some true.
Proof. split; reflexivity. Qed.

(** C3, amended.  In a mode other than [cpu], [combineKernels] on a list of
    kernels followed by a combinator makes every listed kernel, the last one
    included, share one canvas and one context and sets its
    [outputToTexture]; nothing else of a kernel changes, and no other kernel
    is touched. *)
Theorem combineKernels_routes_to_texture (this : GPU.t) (m : string)
    (l0 lN : nat) (rest : list nat) (k0 : Kernel.t) (f : value) (σ : State) :
  GPU.mode this σ = (Normal m, σ) ->
  m <> "cpu"%string ->
  kernels σ !! l0 = Some k0 ->
  Forall (fun l => is_Some (kernels σ !! l)) (l0 :: rest) ->
  last (l0 :: rest) = Some lN ->
  exists (σ' : State) (canvas webGl : value),
    GPU.combineKernels this ((VKernel <$> l0 :: rest) ++ [f]) σ =
      (Normal (VCombined (closures σ) (VKernel lN) f), σ')
    /\ (forall l, l ∈ l0 :: rest ->
          exists k k', kernels σ !! l = Some k /\ kernels σ' !! l = Some k'
            /\ Kernel.outputToTexture k' = true
            /\ Kernel.canvas k' = canvas /\ Kernel.webGl k' = webGl
            /\ Kernel.floatOutput k' = Kernel.floatOutput k
            /\ Kernel.texSize k' = Kernel.texSize k
            /\ Kernel.threadDim k' = Kernel.threadDim k
            /\ Kernel.dimensions k' = Kernel.dimensions k)
    /\ (exists kN, kernels σ' !! lN = Some kN /\ Kernel.outputToTexture kN = true)
    /\ (forall l, l ∉ l0 :: rest -> kernels σ' !! l = kernels σ !! l).
Proof.
  intros Hmode Hm Hk0 Hall Hlast.
  eexists _, (Kernel.canvas k0), (Kernel.webGl k0).
  split; [by apply (combineKernels_run this m l0 lN rest k0 f σ)|].
  assert (Hin : forall l, l ∈ l0 :: rest ->
    exists k, kernels σ !! l = Some k
      /\ kernels (with_kernels σ (configure_all (Kernel.canvas k0) (Kernel.webGl k0)
                    (l0 :: rest) (kernels σ))) !! l
         = Some (configured (Kernel.canvas k0) (Kernel.webGl k0) k)).
  { intros l Hl. rewrite Forall_forall in Hall. destruct (Hall l Hl) as [k Hk].
    exists k. split; [done|]. cbn [new_closure with_kernels kernels].
    rewrite lookup_configure_all, decide_True by done. by rewrite Hk. }
  split; [|split].
  - intros l Hl. destruct (Hin l Hl) as (k & Hk & Hk').
    exists k, (configured (Kernel.canvas k0) (Kernel.webGl k0) k). by repeat split.
  - assert (HlN : lN ∈ l0 :: rest).
    { rewrite last_lookup in Hlast. by eapply list_elem_of_lookup_2. }
    destruct (Hin lN HlN) as (k & _ & Hk'). eexists. split; [exact Hk'|done].
  - intros l Hl. cbn [new_closure with_kernels kernels].
    by rewrite lookup_configure_all, decide_False.
Qed.

Lemma combineKernels_routes_to_texture_witness :
  exists (σ' : State) (canvas webGl : value),
    GPU.combineKernels Sample.webgl ((VKernel <$> [0; 1]%nat) ++ [VFun 7]) Sample.state =
      (Normal (VCombined 0 (VKernel 1) (VFun 7)), σ')
    /\ (forall l, l ∈ [0; 1]%nat ->
          exists k k', kernels Sample.state !! l = Some k /\ kernels σ' !! l = Some k'
            /\ Kernel.outputToTexture k' = true
            /\ Kernel.canvas k' = canvas /\ Kernel.webGl k' = webGl
            /\ Kernel.floatOutput k' = Kernel.floatOutput k
            /\ Kernel.texSize k' = Kernel.texSize k
            /\ Kernel.threadDim k' = Kernel.threadDim k
            /\ Kernel.dimensions k' = Kernel.dimensions k)
    /\ (exists kN, kernels σ' !! 1%nat = Some kN /\ Kernel.outputToTexture kN = true)
    /\ (forall l, l ∉ [0; 1]%nat -> kernels σ' !! l = kernels Sample.state !! l).
Proof.
  apply (combineKernels_routes_to_texture Sample.webgl "gpu"
           0%nat 1%nat [1%nat] Sample.kernelA (VFun 7) Sample.state).
  - reflexivity.
  - discriminate.
  - reflexivity.
  - repeat constructor; eexists; reflexivity.
  - reflexivity.
Defined.

(** C10.  In a mode other than [cpu], after [combineKernels] every listed
    kernel has the canvas and the context that the first listed kernel had
    before the call, whatever its own were. *)
Theorem combineKernels_shares_first_canvas (this : GPU.t) (m : string)
    (l0 lN : nat) (rest : list nat) (k0 : Kernel.t) (f : value) (σ : State) :
  GPU.mode this σ = (Normal m, σ) ->
  m <> "cpu"%string ->
  kernels σ !! l0 = Some k0 ->
  Forall (fun l => is_Some (kernels σ !! l)) (l0 :: rest) ->
  last (l0 :: rest) = Some lN ->
  exists σ' : State,
    GPU.combineKernels this ((VKernel <$> l0 :: rest) ++ [f]) σ =
      (Normal (VCombined (closures σ) (VKernel lN) f), σ')
    /\ forall l, l ∈ l0 :: rest ->
         exists k', kernels σ' !! l = Some k'
           /\ Kernel.canvas k' = Kernel.canvas k0
           /\ Kernel.webGl k' = Kernel.webGl k0.
Proof.
  intros Hmode Hm Hk0 Hall Hlast. eexists.
  split; [by apply (combineKernels_run this m l0 lN rest k0 f σ)|].
  intros l Hl. rewrite Forall_forall in Hall. destruct (Hall l Hl) as [k Hk].
  exists (configured (Kernel.canvas k0) (Kernel.webGl k0) k).
  cbn [new_closure with_kernels kernels].
  rewrite lookup_configure_all, decide_True by done. by rewrite Hk.
Qed.

Lemma combineKernels_shares_first_canvas_witness :
  exists σ' : State,
    GPU.combineKernels Sample.webgl ((VKernel <$> [1; 0; 1]%nat) ++ [VFun 7])
      Sample.state = (Normal (VCombined 0 (VKernel 1) (VFun 7)), σ')
    /\ forall l, l ∈ [1; 0; 1]%nat ->
         exists k', kernels σ' !! l = Some k'
           /\ Kernel.canvas k' = Kernel.canvas Sample.kernelB
           /\ Kernel.webGl k' = Kernel.webGl Sample.kernelB.
Proof.
  apply (combineKernels_shares_first_canvas Sample.webgl "gpu"
           1%nat 1%nat [0; 1]%nat Sample.kernelB (VFun 7) Sample.state).
  - reflexivity.
  - discriminate.
  - reflexivity.
  - repeat constructor; eexists; reflexivity.
  - reflexivity.
Defined.

(** With no kernel before the combinator nothing is configured, and with
    no argument at all the read of [arguments[0].canvas] fails. *)
Example combineKernels_no_kernel :
  GPU.combineKernels Sample.webgl [VFun 7] Sample.state =
    (Normal (VCombined 0 VUndefined (VFun 7)), new_closure Sample.state)
  /\ GPU.combineKernels Sample.webgl [] Sample.state = (Throw TypeError, Sample.state).
Proof. split; reflexivity. Qed.

(** ** C4: [combineKernels] in CPU mode *)

(** C4.  When the facade's mode is [cpu], [combineKernels] on any list of
    kernels followed by a combinator returns the combinator itself and
    leaves the state, hence every kernel, as it was. *)
Theorem combineKernels_cpu_identity (this : GPU.t) (ks : list value) (f : value)
    (σ : State) :
  GPU.mode this σ = (Normal "cpu"%string, σ) ->
  GPU.combineKernels this (ks ++ [f]) σ = (Normal f, σ).
Proof.
  intros Hmode. unfold GPU.combineKernels. rewrite index_last.
  unfold bind at 1. by rewrite Hmode.
Qed.

Lemma combineKernels_cpu_identity_witness :
  GPU.mode Sample.cpu Sample.state = (Normal "cpu"%string, Sample.state)
  /\ GPU.combineKernels Sample.cpu ([VKernel 0; VKernel 1] ++ [VFun 7]) Sample.state =
       (Normal (VFun 7), Sample.state).
Proof.
  split; [reflexivity|].
  apply (combineKernels_cpu_identity Sample.cpu [VKernel 0; VKernel 1] (VFun 7)
           Sample.state).
  reflexivity.
Defined.

(** ** C5: [execute] *)

Lemma execute_args_unchanged (arguments : list value) :
  GPU.execute_args arguments = Normal arguments.
Proof.
  unfold GPU.execute_args.
  destruct arguments as [|a [|b rest]]; [done | | by destruct a].
  by destruct a.
Qed.

(** C5.  For every argument list [execute] returns a deferred result handle
    and never throws: the arguments go to the stored kernel as they are; if
    the invocation raises an error the handle is settled as that failure, and
    if it returns a value the handle is settled as that value. *)
Theorem execute_returns_deferred (invoke : value -> list value -> M value)
    (this : GPU.t) (arguments : list value) (σ : State) :
  GPU.execute_args arguments = Normal arguments
  /\ exists (p : Utils.promise) (σ' : State),
       GPU.execute invoke this arguments σ = (Normal p, σ')
       /\ match GPU.apply invoke (GPU._kernelSynchronousExecutor this) arguments σ with
          | (Normal v, σ1) => p = Utils.Fulfilled v /\ σ' = σ1
          | (Throw e, σ1) => p = Utils.Rejected e /\ σ' = σ1
          end.
Proof.
  split; [apply execute_args_unchanged|].
  unfold GPU.execute. rewrite execute_args_unchanged.
  unfold lift, bind at 1, Utils.newPromise, try_catch, bind, ret.
  destruct (GPU.apply invoke (GPU._kernelSynchronousExecutor this) arguments σ)
    as [[v|e] σ1]; eauto.
Qed.

Example execute_stored_kernel :
  GPU.execute Sample.idle (GPU.mk VUndefined VUndefined (VKernel 0) None)
    [VNum 3; VNum 4] Sample.state =
  (Normal (Utils.Fulfilled VUndefined), Sample.state).
Proof. reflexivity. Qed.

Example execute_without_kernel :
  GPU.execute Sample.idle Sample.webgl [VNum 3] Sample.state =
  (Normal (Utils.Rejected TypeError), Sample.state).
Proof. reflexivity. Qed.

(** ** C8: [createKernel] *)

(** C8.  [createKernel] fails with the spec's [InvalidArgumentError] whenever
    [fn] is absent or not callable, as at [undefined] and at [42]; otherwise
    it has the runner compile [fn], returns the kernel that the runner
    returns, and leaves it stored as the current executor. *)
Theorem createKernel_checks_then_stores
    (buildKernel : Runner.t -> value -> list (string * value) -> M value)
    (this : GPU.t) (fn : value) (settings : option (list (string * value)))
    (σ : State) :
  (Utils.isFunction fn = false ->
     exists e, GPU.createKernel buildKernel this fn settings σ = (Throw e, σ)
               /\ InvalidArgumentError e)
  /\ GPU.createKernel buildKernel this VUndefined settings σ =
       (Throw (Thrown "Missing fn parameter"), σ)
  /\ GPU.createKernel buildKernel this (VNum 42) settings σ =
       (Throw (Thrown "fn parameter not a function"), σ)
  /\ (Utils.isFunction fn = true ->
      forall (r : Runner.t) (kernel : value) (σ' : State),
        GPU._runner this = Some r ->
        buildKernel r fn (default [] settings) σ = (Normal kernel, σ') ->
        exists this' : GPU.t,
          GPU.createKernel buildKernel this fn settings σ = (Normal (kernel, this'), σ')
          /\ GPU._kernelSynchronousExecutor this' = kernel
          /\ GPU._runner this' = GPU._runner this).
Proof.
  split; [|split; [done|split; [done|]]].
  - intros Hfn. unfold GPU.createKernel, InvalidArgumentError.
    destruct fn; try discriminate Hfn; simpl; unfold throw; eauto.
  - intros Hfn r kernel σ' Hr Hbuild. eexists.
    unfold GPU.createKernel, GPU.runner.
    destruct fn; try discriminate Hfn; simpl;
      rewrite Hr; unfold bind, ret; rewrite Hbuild; done.
Qed.

Lemma createKernel_checks_then_stores_witness :
  (exists e, GPU.createKernel Sample.compiler Sample.webgl (VStr "f") None Sample.state
             = (Throw e, Sample.state) /\ InvalidArgumentError e)
  /\ exists this' : GPU.t,
       GPU.createKernel Sample.compiler Sample.webgl (VFun 3) None Sample.state =
         (Normal (VKernel 0, this'), Sample.state)
       /\ GPU._kernelSynchronousExecutor this' = VKernel 0
       /\ GPU._runner this' = GPU._runner Sample.webgl.
Proof.
  split.
  - destruct (createKernel_checks_then_stores Sample.compiler Sample.webgl
                (VStr "f") None Sample.state) as (Hbad & _).
    apply Hbad. reflexivity.
  - destruct (createKernel_checks_then_stores Sample.compiler Sample.webgl
                (VFun 3) None Sample.state) as (_ & _ & _ & Hgood).
    apply (Hgood eq_refl
             (Runner.new Runner.WebGLRunner (Runner.mkSettings VUndefined VUndefined))
             (VKernel 0) Sample.state); reflexivity.
Defined.

(** ** C9: [getCanvas] *)

(** C9 as stated fails: with no kernel yet, [getCanvas] dereferences [null];
    what is raised is the runtime's [TypeError], not a checked error. *)
Lemma getCanvas_unchecked_counterexample :
  GPU.getCanvas Sample.webgl Sample.state = (Throw TypeError, Sample.state)
  /\ checked TypeError = false.
Proof. split; reflexivity. Qed.

(** C9, amended.  [getCanvas] returns the canvas of the current executor
    kernel when there is one; when no kernel has been created yet, as right
    after construction, it fails with the [TypeError] of dereferencing
    [null], which no check of the facade raises. *)
Theorem getCanvas_of_executor (this : GPU.t) (σ : State) :
  (forall (l : nat) (k : Kernel.t),
     GPU._kernelSynchronousExecutor this = VKernel l ->
     kernels σ !! l = Some k ->
     GPU.getCanvas this σ = (Normal (Kernel.canvas k), σ))
  /\ (GPU._kernelSynchronousExecutor this = VNull ->
      GPU.getCanvas this σ = (Throw TypeError, σ) /\ checked TypeError = false)
  /\ (forall (isWebGlSupported : bool) (settings : option GPU.settings) (σ0 : State),
        GPU.constructor isWebGlSupported settings σ0 = (Normal this, σ) ->
        GPU.getCanvas this σ = (Throw TypeError, σ)).
Proof.
  assert (Hnull : GPU._kernelSynchronousExecutor this = VNull ->
                  GPU.getCanvas this σ = (Throw TypeError, σ)).
  { intros Hex. unfold GPU.getCanvas. by rewrite Hex. }
  split; [|split].
  - intros l k Hex Hk. unfold GPU.getCanvas. rewrite Hex.
    unfold KernelOps.property, KernelOps.deref, bind, ret. by rewrite Hk.
  - intros Hex. split; [by apply Hnull | done].
  - intros sup settings σ0 Hnew. apply Hnull.
    unfold GPU.constructor, bind in Hnew.
    destruct (if negb sup then _ else _) as [[mode|e] σ1] eqn:Hm in Hnew;
      [|done].
    repeat (let E := fresh in
            destruct (String.eqb _ _ || String.eqb _ _) eqn:E in Hnew
            || destruct (String.eqb _ _) eqn:E in Hnew);
      unfold ret, throw in Hnew; by inversion Hnew.
Qed.

Lemma getCanvas_of_executor_witness :
  GPU.getCanvas (GPU.mk VUndefined VUndefined (VKernel 1) None) Sample.state =
    (Normal (VHost 3), Sample.state)
  /\ GPU.getCanvas Sample.webgl Sample.state = (Throw TypeError, Sample.state).
Proof.
  split.
  - destruct (getCanvas_of_executor
                (GPU.mk VUndefined VUndefined (VKernel 1) None) Sample.state)
      as (Hsome & _).
    apply (Hsome 1%nat Sample.kernelB); reflexivity.
  - destruct (getCanvas_of_executor Sample.webgl Sample.state) as (_ & Hnone & _).
    apply Hnone. reflexivity.
Defined.

(** ** C6 and C7: construction *)

(** C6 as stated fails: with the capability probe failing, a mode that the
    caller forced is overridden as well, with the same warning. *)
Lemma constructor_overrides_forced_mode_counterexample :
  GPU.constructor false (Some (GPU.mkSettings VUndefined VUndefined (Some "gpu"%string)))
    Sample.state = (Normal Sample.cpu, warned Sample.state).
Proof. reflexivity. Qed.

(** C6, amended.  The downgrade to CPU mode, with its warning, happens
    exactly when the capability probe fails, whether or not the caller
    forced a mode: then construction never throws and resolves to the CPU
    runner, as it does with no mode given; when the probe succeeds nothing
    is written to the console and the mode is not overridden. *)
Theorem constructor_downgrades_when_unsupported (isWebGlSupported : bool)
    (settings : option GPU.settings) (σ : State) :
  (isWebGlSupported = false ->
     let s := default GPU.noSettings settings in
     let this := GPU.mk (GPU.s_canvas s) (GPU.s_webGl s) VNull
                   (Some (Runner.new Runner.CPURunner
                            (Runner.mkSettings (GPU.s_canvas s) (GPU.s_webGl s)))) in
     GPU.constructor isWebGlSupported settings σ = (Normal this, warned σ)
     /\ GPU.mode this (warned σ) = (Normal "cpu"%string, warned σ))
  /\ (isWebGlSupported = true ->
      (GPU.constructor isWebGlSupported settings σ).2 = σ
      /\ forall this, GPU.constructor isWebGlSupported settings σ = (Normal this, σ) ->
           GPU.mode this σ = (Normal "cpu"%string, σ) ->
           toLowerCase (GPU.mode_or_webgl (GPU.s_mode (default GPU.noSettings settings)))
             = "cpu"%string).
Proof.
  split.
  - intros ->. split; reflexivity.
  - intros ->. unfold GPU.constructor. cbn [negb].
    unfold bind, ret, throw, GPU.mode, GPU.runner.
    set (mode := GPU.mode_or_webgl _).
    destruct (String.eqb mode "") eqn:E0.
    { split; [done|]. intros this [= <-]. discriminate. }
    destruct (String.eqb (toLowerCase mode) "cpu") eqn:E1.
    { split; [done|]. intros _ _ _. by apply String.eqb_eq. }
    destruct (String.eqb (toLowerCase mode) "gpu"
              || String.eqb (toLowerCase mode) "webgl") eqn:E2.
    { split; [done|]. intros this [= <-]. discriminate. }
    destruct (String.eqb (toLowerCase mode) "webgl-validator") eqn:E3.
    { split; [done|]. intros this [= <-]. discriminate. }
    split; [done|]. intros this. discriminate.
Qed.

Lemma constructor_downgrades_when_unsupported_witness :
  GPU.constructor false None Sample.state = (Normal Sample.cpu, warned Sample.state)
  /\ GPU.mode Sample.cpu (warned Sample.state) =
       (Normal "cpu"%string, warned Sample.state)
  /\ (GPU.constructor true None Sample.state).2 = Sample.state.
Proof.
  destruct (constructor_downgrades_when_unsupported false None Sample.state)
    as (Hdown & _).
  destruct (constructor_downgrades_when_unsupported true None Sample.state)
    as (_ & Hkeep).
  destruct (Hdown eq_refl) as (Hnew & Hmode).
  destruct (Hkeep eq_refl) as (Hsame & _).
  exact (conj Hnew (conj Hmode Hsame)).
Defined.

(** C7 as stated fails: an unrecognized mode does not make construction fail
    when the capability probe fails (the mode is overridden), nor does the
    empty mode string (the default mode is taken); and the mode is compared
    in lower case. *)
Lemma constructor_unknown_mode_counterexample :
  recognized "bogus" = false
  /\ GPU.constructor false
       (Some (GPU.mkSettings VUndefined VUndefined (Some "bogus"%string)))
       Sample.state = (Normal Sample.cpu, warned Sample.state)
  /\ recognized "" = false
  /\ GPU.constructor true
       (Some (GPU.mkSettings VUndefined VUndefined (Some ""%string)))
       Sample.state = (Normal Sample.webgl, Sample.state)
  /\ recognized "CPU" = false
  /\ GPU.constructor true
       (Some (GPU.mkSettings VUndefined VUndefined (Some "CPU"%string)))
       Sample.state = (Normal Sample.cpu, Sample.state).
Proof. repeat split; reflexivity. Qed.

(** C7, amended.  When the accelerated backend is supported, construction
    with a non-empty mode string that, in lower case, is none of [cpu],
    [gpu], [webgl] and [webgl-validator] throws, at the call, the error
    whose message names the mode as given. *)
Theorem constructor_rejects_unknown_mode (settings : GPU.settings) (m : string)
    (σ : State) :
  GPU.s_mode settings = Some m ->
  m <> ""%string ->
  recognized (toLowerCase m) = false ->
  GPU.constructor true (Some settings) σ = (Throw (Error (GPU.not_defined m)), σ).
Proof.
  intros Hm Hne Hrec. unfold GPU.constructor.
  change (default GPU.noSettings (Some settings)) with settings. cbn [negb].
  unfold bind at 1, ret at 1. rewrite Hm. unfold GPU.mode_or_webgl.
  apply String.eqb_neq in Hne. rewrite Hne.
  unfold recognized in Hrec.
  apply orb_false_elim in Hrec as [Hrec E3].
  apply orb_false_elim in Hrec as [Hrec E2].
  apply orb_false_elim in Hrec as [E0 E1].
  by rewrite Hne, E0, E1, E2, E3.
Qed.

Lemma constructor_rejects_unknown_mode_witness :
  GPU.constructor true
    (Some (GPU.mkSettings VUndefined VUndefined (Some "bogus"%string))) Sample.state =
  (Throw (Error (GPU.not_defined "bogus")), Sample.state).
Proof.
  apply (constructor_rejects_unknown_mode
           (GPU.mkSettings VUndefined VUndefined (Some "bogus"%string)) "bogus").
  - reflexivity.
  - discriminate.
  - reflexivity.
Defined.

(** * Further properties of the facade *)

(** ** Construction *)

Lemma mode_or_webgl_nonempty (m : option string) :
  String.eqb (GPU.mode_or_webgl m) "" = false.
Proof.
  unfold GPU.mode_or_webgl. destruct m as [s|]; [|done].
  destruct (String.eqb s "") eqn:E; [done | exact E].
Qed.

Lemma lower_ascii_idemp (c : ascii) : lower_ascii (lower_ascii c) = lower_ascii c.
Proof. destruct c as [[] [] [] [] [] [] [] []]; reflexivity. Qed.

Lemma toLowerCase_idemp (s : string) : toLowerCase (toLowerCase s) = toLowerCase s.
Proof.
  induction s as [|c s IH]; [done|]. cbn [toLowerCase].
  by rewrite lower_ascii_idemp, IH.
Qed.

Lemma toLowerCase_empty (s : string) :
  String.eqb (toLowerCase s) "" = String.eqb s "".
Proof. by destruct s. Qed.

(** What a construction that returns has built. *)
Lemma constructor_result (isWebGlSupported : bool)
    (settings : option GPU.settings) (σ σ' : State) (this : GPU.t) :
  GPU.constructor isWebGlSupported settings σ = (Normal this, σ') ->
  let s := default GPU.noSettings settings in
  GPU.canvas this = GPU.s_canvas s
  /\ GPU.webGl this = GPU.s_webGl s
  /\ GPU._kernelSynchronousExecutor this = VNull
  /\ (exists r, GPU._runner this = Some r
                /\ Runner.opts r = Runner.mkSettings (GPU.s_canvas s) (GPU.s_webGl s))
  /\ kernels σ' = kernels σ.
Proof.
  intros Hnew s. unfold GPU.constructor in Hnew. fold s in Hnew.
  destruct isWebGlSupported; cbn [negb] in Hnew;
    unfold bind, ret, throw, console_warn in Hnew.
  - rewrite mode_or_webgl_nonempty in Hnew.
    repeat (let E := fresh in
            destruct (String.eqb _ _ || String.eqb _ _) eqn:E in Hnew
            || destruct (String.eqb _ _) eqn:E in Hnew);
      inversion Hnew; subst; simpl; eauto 10.
  - simpl in Hnew. inversion Hnew; subst; simpl; eauto 10.
Qed.

(** X1.  The guard [if (mode)] of the constructor never fails: every
    construction that returns leaves a facade with a runner, built with the
    canvas and the context of the settings, with the same canvas and context
    on the facade itself and no current kernel; the kernels of the state are
    not touched. *)
Theorem constructor_always_sets_runner (isWebGlSupported : bool)
    (settings : option GPU.settings) (σ σ' : State) (this : GPU.t) :
  GPU.constructor isWebGlSupported settings σ = (Normal this, σ') ->
  let s := default GPU.noSettings settings in
  GPU.canvas this = GPU.s_canvas s
  /\ GPU.webGl this = GPU.s_webGl s
  /\ GPU._kernelSynchronousExecutor this = VNull
  /\ (exists r, GPU._runner this = Some r
                /\ Runner.opts r = Runner.mkSettings (GPU.s_canvas s) (GPU.s_webGl s))
  /\ kernels σ' = kernels σ.
Proof. apply constructor_result. Qed.

Lemma constructor_always_sets_runner_witness :
  GPU.canvas Sample.webgl = VUndefined
  /\ GPU.webGl Sample.webgl = VUndefined
  /\ GPU._kernelSynchronousExecutor Sample.webgl = VNull
  /\ (exists r, GPU._runner Sample.webgl = Some r
                /\ Runner.opts r = Runner.mkSettings VUndefined VUndefined)
  /\ kernels Sample.state = kernels Sample.state.
Proof.
  apply (constructor_always_sets_runner true None Sample.state Sample.state
           Sample.webgl).
  reflexivity.
Defined.

(** X2.  With the accelerated backend supported, construction returns
    exactly when the mode, in lower case and [webgl] when none or the empty
    string is given, is a recognized one; the runner is then the CPU runner
    exactly for [cpu], and its kernel class is the validating one exactly
    for [webgl-validator]. *)
Theorem constructor_dispatches_on_mode (settings : option GPU.settings) (σ : State) :
  let lower :=
    toLowerCase (GPU.mode_or_webgl (GPU.s_mode (default GPU.noSettings settings))) in
  (recognized lower = false ->
     exists e, GPU.constructor true settings σ = (Throw e, σ))
  /\ (recognized lower = true ->
      exists this r,
        GPU.constructor true settings σ = (Normal this, σ)
        /\ GPU._runner this = Some r
        /\ (Runner.cls r = Runner.CPURunner <-> lower = "cpu"%string)
        /\ (Runner.Kernel r = Runner.WebGLValidatorKernel
            <-> lower = "webgl-validator"%string)).
Proof.
  intros lower. unfold GPU.constructor, bind, ret, throw. cbn [negb].
  cbv beta iota zeta. rewrite mode_or_webgl_nonempty. subst lower.
  set (lower := toLowerCase _). unfold recognized.
  destruct (String.eqb lower "cpu") eqn:E0.
  { apply String.eqb_eq in E0. split; [by simpl|]. intros _.
    eexists _, _. split; [done|]. split; [done|]. rewrite E0.
    split; [done|]. split; discriminate. }
  destruct (String.eqb lower "gpu") eqn:E1.
  { apply String.eqb_eq in E1. split; [by simpl|]. intros _.
    eexists _, _. split; [done|]. split; [done|]. rewrite E1.
    split; split; discriminate. }
  destruct (String.eqb lower "webgl") eqn:E2.
  { apply String.eqb_eq in E2. split; [by simpl|]. intros _.
    eexists _, _. split; [done|]. split; [done|]. rewrite E2.
    split; split; discriminate. }
  destruct (String.eqb lower "webgl-validator") eqn:E3.
  { apply String.eqb_eq in E3. split; [by simpl|]. intros _.
    eexists _, _. split; [done|]. split; [done|]. rewrite E3.
    split; [split; discriminate | done]. }
  split; [|by simpl]. intros _. eexists. reflexivity.
Qed.

Lemma constructor_dispatches_on_mode_witness :
  exists this r,
    GPU.constructor true
      (Some (GPU.mkSettings (VHost 1) (VHost 2) (Some "WebGL-Validator"%string)))
      Sample.state = (Normal this, Sample.state)
    /\ GPU._runner this = Some r
    /\ Runner.cls r = Runner.WebGLRunner
    /\ Runner.Kernel r = Runner.WebGLValidatorKernel.
Proof.
  destruct (constructor_dispatches_on_mode
              (Some (GPU.mkSettings (VHost 1) (VHost 2) (Some "WebGL-Validator"%string)))
              Sample.state) as (_ & Hok).
  destruct (Hok eq_refl) as (this & r & Hnew & Hr & Hcls & Hk).
  exists this, r. split; [exact Hnew|]. split; [exact Hr|]. split.
  - destruct (Runner.cls r); [|reflexivity].
    destruct Hcls as (Hcls & _). discriminate (Hcls eq_refl).
  - apply Hk. reflexivity.
Defined.

(** X3.  The mode is compared without regard to case: a mode string that is
    recognized in lower case constructs the same facade as its lower-case
    form, whatever the capability probe says. *)
Theorem constructor_mode_case_insensitive (isWebGlSupported : bool)
    (canvas webGl : value) (m : string) (σ : State) :
  recognized (toLowerCase m) = true ->
  GPU.constructor isWebGlSupported (Some (GPU.mkSettings canvas webGl (Some m))) σ =
  GPU.constructor isWebGlSupported
    (Some (GPU.mkSettings canvas webGl (Some (toLowerCase m)))) σ.
Proof.
  intros Hrec. destruct isWebGlSupported; [|reflexivity].
  assert (Hne : String.eqb m "" = false).
  { rewrite <- toLowerCase_empty. by destruct (toLowerCase m). }
  unfold GPU.constructor, bind, ret, throw.
  cbn [negb default from_option id GPU.s_mode GPU.s_canvas GPU.s_webGl].
  cbv beta iota zeta.
  unfold GPU.mode_or_webgl. rewrite !toLowerCase_empty, !Hne.
  rewrite !toLowerCase_empty, !Hne, toLowerCase_idemp.
  unfold recognized in Hrec.
  destruct (String.eqb (toLowerCase m) "cpu"); [done|].
  destruct (String.eqb (toLowerCase m) "gpu"); [done|].
  destruct (String.eqb (toLowerCase m) "webgl"); [done|].
  destruct (String.eqb (toLowerCase m) "webgl-validator"); [done|].
  discriminate Hrec.
Qed.

Lemma constructor_mode_case_insensitive_witness :
  GPU.constructor true (Some (GPU.mkSettings VUndefined VUndefined (Some "Cpu"%string)))
    Sample.state =
  GPU.constructor true (Some (GPU.mkSettings VUndefined VUndefined (Some "cpu"%string)))
    Sample.state.
Proof.
  apply (constructor_mode_case_insensitive true VUndefined VUndefined "Cpu"
           Sample.state).
  reflexivity.
Defined.

(** ** Creation, execution and the canvas *)

(** X4.  After a [createKernel] that returns, [getCanvas] gives the canvas
    that the returned kernel has in the store at that time, whatever kernel
    was current before. *)
Theorem createKernel_then_getCanvas
    (buildKernel : Runner.t -> value -> list (string * value) -> M value)
    (this this' : GPU.t) (fn : value) (settings : option (list (string * value)))
    (σ σ' : State) (l : nat) (k : Kernel.t) :
  GPU.createKernel buildKernel this fn settings σ = (Normal (VKernel l, this'), σ') ->
  kernels σ' !! l = Some k ->
  GPU.getCanvas this' σ' = (Normal (Kernel.canvas k), σ').
Proof.
  intros Hcreate Hk. unfold GPU.createKernel in Hcreate.
  assert (Hex : GPU._kernelSynchronousExecutor this' = VKernel l).
  { destruct fn; try discriminate Hcreate;
      (destruct (negb _); [discriminate Hcreate|]);
      unfold GPU.runner, bind, ret, throw in Hcreate;
      (destruct (GPU._runner this); [|discriminate Hcreate]);
      (destruct (buildKernel _ _ _ σ) as [[kernel|e] σ1];
         [|discriminate Hcreate]);
      by inversion Hcreate. }
  unfold GPU.getCanvas. rewrite Hex.
  unfold KernelOps.property, KernelOps.deref, bind, ret. by rewrite Hk.
Qed.

Lemma createKernel_then_getCanvas_witness :
  GPU.getCanvas
    (GPU.mk VUndefined VUndefined (VKernel 0) (GPU._runner Sample.webgl)) Sample.state =
  (Normal (Kernel.canvas Sample.kernelA), Sample.state).
Proof.
  apply (createKernel_then_getCanvas Sample.compiler Sample.webgl _ (VFun 3) None
           Sample.state Sample.state 0%nat Sample.kernelA).
  - reflexivity.
  - reflexivity.
Defined.

(** X5.  After a [createKernel] that returns, [execute] invokes the kernel
    just returned, not an earlier one, with the arguments as given: its
    handle is settled by what that invocation does. *)
Theorem createKernel_then_execute
    (buildKernel : Runner.t -> value -> list (string * value) -> M value)
    (invoke : value -> list value -> M value)
    (this this' : GPU.t) (fn kernel : value)
    (settings : option (list (string * value)))
    (σ σ' σ1 : State) (arguments : list value) :
  GPU.createKernel buildKernel this fn settings σ = (Normal (kernel, this'), σ') ->
  GPU.execute invoke this' arguments σ1 =
    match GPU.apply invoke kernel arguments σ1 with
    | (Normal v, σ2) => (Normal (Utils.Fulfilled v), σ2)
    | (Throw e, σ2) => (Normal (Utils.Rejected e), σ2)
    end.
Proof.
  intros Hcreate. unfold GPU.createKernel in Hcreate.
  assert (Hex : GPU._kernelSynchronousExecutor this' = kernel).
  { destruct fn; try discriminate Hcreate;
      (destruct (negb _); [discriminate Hcreate|]);
      unfold GPU.runner, bind, ret, throw in Hcreate;
      (destruct (GPU._runner this); [|discriminate Hcreate]);
      (destruct (buildKernel _ _ _ σ) as [[kernel'|e] σ2];
         [|discriminate Hcreate]);
      by inversion Hcreate. }
  unfold GPU.execute. rewrite execute_args_unchanged, Hex.
  unfold lift, bind at 1, Utils.newPromise, try_catch, bind, ret.
  by destruct (GPU.apply invoke kernel arguments σ1) as [[v|e] σ2].
Qed.

Lemma createKernel_then_execute_witness :
  GPU.execute Sample.idle
    (GPU.mk VUndefined VUndefined (VKernel 0) (GPU._runner Sample.webgl))
    [VNum 1; VNum 2] Sample.state =
  match GPU.apply Sample.idle (VKernel 0) [VNum 1; VNum 2] Sample.state with
  | (Normal v, σ2) => (Normal (Utils.Fulfilled v), σ2)
  | (Throw e, σ2) => (Normal (Utils.Rejected e), σ2)
  end.
Proof.
  apply (createKernel_then_execute Sample.compiler Sample.idle Sample.webgl _
           (VFun 3) (VKernel 0) None Sample.state Sample.state Sample.state
           [VNum 1; VNum 2]).
  reflexivity.
Defined.

(** X6.  Before any [createKernel], [execute] on a constructed facade does
    not throw and does not touch the state: its handle is settled as the
    failure [TypeError] of applying [null], whatever the arguments. *)
Theorem execute_before_createKernel
    (invoke : value -> list value -> M value)
    (isWebGlSupported : bool) (settings : option GPU.settings)
    (σ0 σ1 σ : State) (this : GPU.t) (arguments : list value) :
  GPU.constructor isWebGlSupported settings σ0 = (Normal this, σ1) ->
  GPU.execute invoke this arguments σ = (Normal (Utils.Rejected TypeError), σ).
Proof.
  intros Hnew.
  destruct (constructor_result _ _ _ _ _ Hnew) as (_ & _ & Hex & _).
  unfold GPU.execute. rewrite execute_args_unchanged, Hex. reflexivity.
Qed.

Lemma execute_before_createKernel_witness :
  GPU.execute Sample.idle Sample.cpu [VNum 1] Sample.state =
  (Normal (Utils.Rejected TypeError), Sample.state).
Proof.
  apply (execute_before_createKernel Sample.idle false None Sample.state
           (warned Sample.state) Sample.state Sample.cpu [VNum 1]).
  reflexivity.
Defined.

(** X7.  When the current kernel is one of the kernels given to
    [combineKernels] in a mode other than [cpu], [getCanvas] afterwards gives
    the canvas that the first listed kernel had, through the shared store. *)
Theorem combineKernels_then_getCanvas (this : GPU.t) (m : string)
    (l0 lN l : nat) (rest : list nat) (k0 : Kernel.t) (f : value) (σ : State) :
  GPU.mode this σ = (Normal m, σ) ->
  m <> "cpu"%string ->
  kernels σ !! l0 = Some k0 ->
  Forall (fun l => is_Some (kernels σ !! l)) (l0 :: rest) ->
  last (l0 :: rest) = Some lN ->
  GPU._kernelSynchronousExecutor this = VKernel l ->
  l ∈ l0 :: rest ->
  exists σ',
    GPU.combineKernels this ((VKernel <$> l0 :: rest) ++ [f]) σ =
      (Normal (VCombined (closures σ) (VKernel lN) f), σ')
    /\ GPU.getCanvas this σ' = (Normal (Kernel.canvas k0), σ').
Proof.
  intros Hmode Hm Hk0 Hall Hlast Hex Hl. eexists.
  split; [by apply (combineKernels_run this m l0 lN rest k0 f σ)|].
  rewrite Forall_forall in Hall. destruct (Hall l Hl) as [k Hk].
  unfold GPU.getCanvas. rewrite Hex.
  unfold KernelOps.property, KernelOps.deref, bind, ret.
  cbn [new_closure with_kernels kernels].
  rewrite lookup_configure_all, decide_True by done. by rewrite Hk.
Qed.

Lemma combineKernels_then_getCanvas_witness :
  exists σ',
    GPU.combineKernels
      (GPU.mk VUndefined VUndefined (VKernel 1) (GPU._runner Sample.webgl))
      ((VKernel <$> [0; 1]%nat) ++ [VFun 7]) Sample.state =
      (Normal (VCombined 0 (VKernel 1) (VFun 7)), σ')
    /\ GPU.getCanvas
         (GPU.mk VUndefined VUndefined (VKernel 1) (GPU._runner Sample.webgl)) σ' =
       (Normal (Kernel.canvas Sample.kernelA), σ').
Proof.
  apply (combineKernels_then_getCanvas _ "gpu" 0%nat 1%nat 1%nat [1%nat]
           Sample.kernelA (VFun 7) Sample.state).
  - reflexivity.
  - discriminate.
  - reflexivity.
  - repeat constructor; eexists; reflexivity.
  - reflexivity.
  - reflexivity.
  - apply list_elem_of_further, list_elem_of_here.
Defined.

(** ** [combineKernels] on other argument lists *)

Lemma mode_any_state (this : GPU.t) (m : string) (σ σ' : State) :
  GPU.mode this σ = (Normal m, σ) -> GPU.mode this σ' = (Normal m, σ').
Proof.
  unfold GPU.mode, GPU.runner, bind, ret, throw.
  destruct (GPU._runner this); [|discriminate]. by intros [= ->].
Qed.

Lemma configure_app (arguments : list value) (c w : value) (is1 is2 : list Z)
    (σ : State) :
  GPU.configure arguments c w (is1 ++ is2) σ =
  (do! GPU.configure arguments c w is1 in GPU.configure arguments c w is2) σ.
Proof.
  revert σ. induction is1 as [|i is1 IH]; intros σ; [done|].
  cbn [app GPU.configure]. unfold bind.
  destruct (KernelOps.setCanvas _ _ σ) as [[k1|e] σ1]; [|done].
  destruct (KernelOps.setWebGl _ _ σ1) as [[k2|e] σ2]; [|done].
  destruct (KernelOps.setOutputToTexture _ _ σ2) as [[k3|e] σ3]; [|done].
  apply IH.
Qed.

(** A value that is no kernel has none of the setters. *)
Lemma configure_not_kernel (arguments : list value) (c w : value) (i : Z)
    (rest : list Z) (σ : State) :
  (forall l, index arguments i <> VKernel l) ->
  GPU.configure arguments c w (i :: rest) σ = (Throw TypeError, σ).
Proof.
  intros Hbad. cbn [GPU.configure]. unfold bind, KernelOps.setCanvas,
    KernelOps.method.
  destruct (index arguments i); try done. by destruct (Hbad l).
Qed.

(** X8.  In a mode other than [cpu], [combineKernels] with a first argument
    that is no kernel and at least one more argument throws [TypeError] and
    changes nothing. *)
Theorem combineKernels_first_not_kernel (this : GPU.t) (m : string)
    (a b : value) (rest : list value) (σ : State) :
  GPU.mode this σ = (Normal m, σ) ->
  m <> "cpu"%string ->
  (forall l, a <> VKernel l) ->
  GPU.combineKernels this (a :: b :: rest) σ = (Throw TypeError, σ).
Proof.
  intros Hmode Hm Ha. unfold GPU.combineKernels.
  unfold bind at 1. rewrite Hmode.
  apply String.eqb_neq in Hm. rewrite Hm.
  change (index (a :: b :: rest) 0) with a.
  assert (Hseq : seqZ 0 (Z.of_nat (length (a :: b :: rest)) - 1)
                 = 0 :: seqZ 1 (Z.of_nat (length rest))).
  { rewrite seqZ_cons by (simpl length; lia). f_equal. f_equal.
    simpl length. lia. }
  rewrite Hseq.
  destruct a; try (by destruct (Ha l));
    unfold KernelOps.property, bind, ret, throw; try done;
    by rewrite configure_not_kernel.
Qed.

Lemma combineKernels_first_not_kernel_witness :
  GPU.combineKernels Sample.webgl [VFun 1; VKernel 0; VFun 7] Sample.state =
  (Throw TypeError, Sample.state).
Proof.
  apply (combineKernels_first_not_kernel Sample.webgl "gpu" (VFun 1) (VKernel 0)
           [VFun 7] Sample.state).
  - reflexivity.
  - discriminate.
  - discriminate.
Defined.

(** X9.  [combineKernels] is not atomic: in a mode other than [cpu], when a
    value that is no kernel stands before the combinator after some kernels,
    the call throws [TypeError] with the kernels before that value already
    configured. *)
Theorem combineKernels_partial_on_bad_argument (this : GPU.t) (m : string)
    (l0 : nat) (rest : list nat) (k0 : Kernel.t) (bad f : value)
    (more : list value) (σ : State) :
  GPU.mode this σ = (Normal m, σ) ->
  m <> "cpu"%string ->
  kernels σ !! l0 = Some k0 ->
  Forall (fun l => is_Some (kernels σ !! l)) (l0 :: rest) ->
  (forall l, bad <> VKernel l) ->
  GPU.combineKernels this ((VKernel <$> l0 :: rest) ++ bad :: more ++ [f]) σ =
    (Throw TypeError,
     with_kernels σ
       (configure_all (Kernel.canvas k0) (Kernel.webGl k0) (l0 :: rest) (kernels σ))).
Proof.
  intros Hmode Hm Hk0 Hall Hbad. unfold GPU.combineKernels.
  unfold bind at 1. rewrite Hmode.
  apply String.eqb_neq in Hm. rewrite Hm.
  set (arguments := (VKernel <$> l0 :: rest) ++ bad :: more ++ [f]).
  change (index arguments 0) with (VKernel l0).
  unfold KernelOps.property, KernelOps.deref. unfold bind at 1 2 3 4.
  unfold ret at 1 2. rewrite !Hk0.
  assert (Hlen : Z.of_nat (length arguments) - 1 =
                 Z.of_nat (length (l0 :: rest)) + (1 + Z.of_nat (length more))).
  { unfold arguments. rewrite length_app, length_fmap. cbn [length].
    rewrite length_app. cbn [length]. lia. }
  rewrite Hlen, seqZ_app by lia. rewrite Z.add_0_l.
  rewrite (seqZ_cons (Z.of_nat (length (l0 :: rest)))) by lia.
  unfold bind at 1. rewrite configure_app. unfold bind at 1.
  rewrite (configure_run arguments _ _ _ (l0 :: rest)); [|  | done].
  - rewrite configure_not_kernel; [done|].
    intros l. unfold index, arguments.
    replace (Z.of_nat (length (l0 :: rest)) <? 0) with false by not_negative.
    rewrite Nat2Z.id, nth_lookup.
    rewrite (list_lookup_middle _ _ bad) by (by rewrite length_fmap).
    apply Hbad.
  - apply Forall2_same_length_lookup_2.
    + by rewrite length_seqZ, Nat2Z.id.
    + intros j i l Hi Hl. apply lookup_seqZ in Hi as [-> Hj].
      unfold index, arguments. replace (0 + Z.of_nat j <? 0) with false by lia.
      rewrite Z.add_0_l, Nat2Z.id, nth_lookup.
      rewrite lookup_app_l by (rewrite length_fmap; lia).
      by rewrite list_lookup_fmap, Hl.
Qed.

Lemma combineKernels_partial_on_bad_argument_witness :
  GPU.combineKernels Sample.webgl
    ((VKernel <$> [0; 1]%nat) ++ VNum 5 :: [VKernel 1] ++ [VFun 7]) Sample.state =
  (Throw TypeError,
   with_kernels Sample.state
     (configure_all (Kernel.canvas Sample.kernelA) (Kernel.webGl Sample.kernelA)
        [0; 1]%nat (kernels Sample.state))).
Proof.
  apply (combineKernels_partial_on_bad_argument Sample.webgl "gpu" 0%nat [1%nat]
           Sample.kernelA (VNum 5) (VFun 7) [VKernel 1] Sample.state).
  - reflexivity.
  - discriminate.
  - reflexivity.
  - repeat constructor; eexists; reflexivity.
  - discriminate.
Defined.

Lemma configure_all_idemp (c w : value) (ls : list nat) (m : gmap nat Kernel.t) :
  configure_all c w ls (configure_all c w ls m) = configure_all c w ls m.
Proof.
  apply map_eq. intros l. rewrite !lookup_configure_all.
  case_decide; [|done]. by destruct (m !! l).
Qed.

Lemma configure_all_same_elements (c w : value) (ls ls' : list nat)
    (m : gmap nat Kernel.t) :
  (forall l, l ∈ ls <-> l ∈ ls') ->
  configure_all c w ls m = configure_all c w ls' m.
Proof.
  intros Hsame. apply map_eq. intros l. rewrite !lookup_configure_all.
  destruct (decide (l ∈ ls)) as [Hin|Hin].
  - by rewrite decide_True by (by apply Hsame).
  - by rewrite decide_False by (by rewrite <- Hsame).
Qed.

Lemma last_cons_is_Some {A} (x : A) (l : list A) : exists y, last (x :: l) = Some y.
Proof.
  destruct (last (x :: l)) as [y|] eqn:E; [by exists y|].
  apply last_None in E. discriminate E.
Qed.

(** X10.  A second [combineKernels] with the same arguments, in a mode
    other than [cpu], configures nothing anew: the kernels and the console
    stay as the first call left them.  What it returns is a new function
    object, distinct from the first, over the same last kernel and the same
    combinator. *)
Theorem combineKernels_twice (this : GPU.t) (m : string)
    (l0 : nat) (rest : list nat) (k0 : Kernel.t) (f : value) (σ : State) :
  GPU.mode this σ = (Normal m, σ) ->
  m <> "cpu"%string ->
  kernels σ !! l0 = Some k0 ->
  Forall (fun l => is_Some (kernels σ !! l)) (l0 :: rest) ->
  exists (id1 id2 lN : nat) (σ1 σ2 : State),
    GPU.combineKernels this ((VKernel <$> l0 :: rest) ++ [f]) σ =
      (Normal (VCombined id1 (VKernel lN) f), σ1)
    /\ GPU.combineKernels this ((VKernel <$> l0 :: rest) ++ [f]) σ1 =
      (Normal (VCombined id2 (VKernel lN) f), σ2)
    /\ id1 <> id2
    /\ kernels σ2 = kernels σ1
    /\ console σ2 = console σ1.
Proof.
  intros Hmode Hm Hk0 Hall.
  destruct (last_cons_is_Some l0 rest) as [lN Hlast].
  set (c := Kernel.canvas k0). set (w := Kernel.webGl k0).
  set (σ1 := new_closure
               (with_kernels σ (configure_all c w (l0 :: rest) (kernels σ)))).
  assert (Hk0' : kernels σ1 !! l0 = Some (configured c w k0)).
  { unfold σ1. cbn [new_closure with_kernels kernels].
    rewrite lookup_configure_all, decide_True by apply list_elem_of_here.
    by rewrite Hk0. }
  assert (Hall' : Forall (fun l => is_Some (kernels σ1 !! l)) (l0 :: rest)).
  { rewrite Forall_forall in Hall |- *. intros l Hl.
    destruct (Hall l Hl) as [k Hk]. unfold σ1.
    cbn [new_closure with_kernels kernels].
    rewrite lookup_configure_all, decide_True by done. rewrite Hk. by eexists. }
  eexists (closures σ), (closures σ1), lN, σ1, _.
  split; [by apply (combineKernels_run this m l0 lN rest k0 f σ)|].
  split.
  { apply (combineKernels_run this m l0 lN rest (configured c w k0) f σ1);
      [by apply (mode_any_state this m σ) | done | done | done | done]. }
  split; [unfold σ1; cbn [new_closure with_kernels closures]; lia|].
  split; [|done].
  cbn [new_closure with_kernels kernels configured Kernel.canvas Kernel.webGl].
  unfold σ1. cbn [new_closure with_kernels kernels].
  apply configure_all_idemp.
Qed.

Lemma combineKernels_twice_witness :
  exists (id1 id2 lN : nat) (σ1 σ2 : State),
    GPU.combineKernels Sample.webgl ((VKernel <$> [1; 0]%nat) ++ [VFun 7]) Sample.state
      = (Normal (VCombined id1 (VKernel lN) (VFun 7)), σ1)
    /\ GPU.combineKernels Sample.webgl ((VKernel <$> [1; 0]%nat) ++ [VFun 7]) σ1
      = (Normal (VCombined id2 (VKernel lN) (VFun 7)), σ2)
    /\ id1 <> id2
    /\ kernels σ2 = kernels σ1
    /\ console σ2 = console σ1.
Proof.
  apply (combineKernels_twice Sample.webgl "gpu" 1%nat [0%nat] Sample.kernelB
           (VFun 7) Sample.state).
  - reflexivity.
  - discriminate.
  - reflexivity.
  - repeat constructor; eexists; reflexivity.
Defined.

(** X11.  Beyond which kernel comes first, the state that [combineKernels]
    leaves depends only on which kernels are listed: two lists with the same
    first kernel and the same kernels after it, in any order and any number
    of times, and any two combinators, leave the same state. *)
Theorem combineKernels_order_irrelevant (this : GPU.t) (m : string)
    (l0 : nat) (rest rest' : list nat) (k0 : Kernel.t) (f f' : value) (σ : State) :
  GPU.mode this σ = (Normal m, σ) ->
  m <> "cpu"%string ->
  kernels σ !! l0 = Some k0 ->
  Forall (fun l => is_Some (kernels σ !! l)) (l0 :: rest) ->
  (forall l, l ∈ rest <-> l ∈ rest') ->
  (GPU.combineKernels this ((VKernel <$> l0 :: rest) ++ [f]) σ).2 =
  (GPU.combineKernels this ((VKernel <$> l0 :: rest') ++ [f']) σ).2.
Proof.
  intros Hmode Hm Hk0 Hall Hsame.
  destruct (last_cons_is_Some l0 rest) as [lN Hlast].
  destruct (last_cons_is_Some l0 rest') as [lN' Hlast'].
  assert (Hall' : Forall (fun l => is_Some (kernels σ !! l)) (l0 :: rest')).
  { rewrite Forall_forall in Hall |- *. intros l Hl. apply Hall.
    rewrite elem_of_cons in Hl |- *. rewrite Hsame. done. }
  rewrite (combineKernels_run this m l0 lN rest k0 f σ) by done.
  rewrite (combineKernels_run this m l0 lN' rest' k0 f' σ) by done.
  cbn [snd]. do 2 f_equal. apply configure_all_same_elements.
  intros l. rewrite !elem_of_cons, Hsame. done.
Qed.

Lemma combineKernels_order_irrelevant_witness :
  (GPU.combineKernels Sample.webgl ((VKernel <$> [0; 1; 0]%nat) ++ [VFun 7])
     Sample.state).2 =
  (GPU.combineKernels Sample.webgl ((VKernel <$> [0; 0; 1; 1]%nat) ++ [VFun 8])
     Sample.state).2.
Proof.
  apply (combineKernels_order_irrelevant Sample.webgl "gpu" 0%nat [1; 0]%nat
           [0; 1; 1]%nat Sample.kernelA (VFun 7) (VFun 8) Sample.state).
  - reflexivity.
  - discriminate.
  - reflexivity.
  - repeat constructor; eexists; reflexivity.
  - intros l. rewrite !elem_of_cons, !elem_of_nil. tauto.
Defined.

(** ** The combined callable *)

(** X12.  [combineKernels] accepts a plain function alone, in a mode other
    than [cpu], and does nothing but create the callable; but the callable
    it returns has no last kernel: every call runs the combinator and then
    fails, with the combinator's own error or else with [TypeError]. *)
Theorem combined_without_kernels (invoke : value -> list value -> M value)
    (this : GPU.t) (m : string) (n : nat) (args : list value) (σ σ1 : State) :
  GPU.mode this σ = (Normal m, σ) ->
  m <> "cpu"%string ->
  GPU.combineKernels this [VFun n] σ =
    (Normal (VCombined (closures σ) VUndefined (VFun n)), new_closure σ)
  /\ GPU.apply invoke (VCombined (closures σ) VUndefined (VFun n)) args σ1 =
       match invoke (VFun n) args σ1 with
       | (Normal _, σ2) => (Throw TypeError, σ2)
       | (Throw e, σ2) => (Throw e, σ2)
       end.
Proof.
  intros Hmode Hm. split.
  - unfold GPU.combineKernels. unfold bind at 1. rewrite Hmode.
    apply String.eqb_neq in Hm. by rewrite Hm.
  - cbn [GPU.apply]. unfold bind.
    by destruct (invoke (VFun n) args σ1) as [[v|e] σ2].
Qed.

Lemma combined_without_kernels_witness :
  GPU.combineKernels Sample.webgl [VFun 7] Sample.state =
    (Normal (VCombined 0 VUndefined (VFun 7)), new_closure Sample.state)
  /\ GPU.apply Sample.idle (VCombined 0 VUndefined (VFun 7)) [] Sample.state =
       (Throw TypeError, Sample.state).
Proof.
  apply (combined_without_kernels Sample.idle Sample.webgl "gpu" 7 []
           Sample.state Sample.state).
  - reflexivity.
  - discriminate.
Defined.

(** X13.  The read-back of line 101 to 112 never changes the state; the
    buffer of [texSize[0] * texSize[1] * 4] elements is allocated before the
    context is used, so a negative length and a length beyond what the
    runtime grants, as every length above [2^53 - 1] is, fail with
    [RangeError] whatever the context is; with the buffer allocated, a
    [webGl] that is no context fails with [TypeError]; in every other case
    the read-back returns, with as many floats as [texSize] gives. *)
Theorem readback_outcomes (k : Kernel.t) (σ : State) :
  let n := (Kernel.texSize k).1 * (Kernel.texSize k).2 * 4 in
  (GPU.readback k σ).2 = σ
  /\ (n < 0 \/ TypedArray.limit σ < n \/ 9007199254740991 < n ->
      GPU.readback k σ = (Throw RangeError, σ))
  /\ (0 <= n <= TypedArray.limit σ ->
      (forall c, Kernel.webGl k <> VHost c) ->
      GPU.readback k σ = (Throw TypeError, σ))
  /\ (forall buffer σ', GPU.readback k σ = (Normal buffer, σ') ->
      0 <= n <= TypedArray.limit σ
      /\ (exists c, Kernel.webGl k = VHost c)
      /\ Z.of_nat (length buffer) = readable k).
Proof.
  intros n. rewrite readback_eq. cbv zeta. fold n.
  assert (Hlimit : TypedArray.limit σ <= 9007199254740991)
    by (unfold TypedArray.limit; lia).
  destruct ((n <? 0) || (TypedArray.limit σ <? n)) eqn:Hsize.
  - split; [done|]. split; [done|].
    apply orb_true_iff in Hsize as [Hneg|Hbig];
      [apply Z.ltb_lt in Hneg | apply Z.ltb_lt in Hbig];
      (split; [lia | by intros buffer σ']).
  - apply orb_false_elim in Hsize as [Hneg Hbig].
    apply Z.ltb_ge in Hneg. apply Z.ltb_ge in Hbig.
    destruct (Kernel.webGl k) as [| | | | | |c| | | |] eqn:Hgl;
      try (split; [done|]; split; [lia|]; split; [done|];
           by intros buffer σ').
    split; [done|]. split; [lia|].
    split; [intros _ Hc; by destruct (Hc c)|].
    intros buffer σ' [= <- <-]. split; [lia|]. split; [by exists c|].
    destruct (readback_length k c σ Hgl) as (buffer & Hread & Hlen);
      [fold n; lia|].
    rewrite readback_eq in Hread. cbv zeta in Hread. fold n in Hread.
    replace ((n <? 0) || (TypedArray.limit σ <? n)) with false in Hread
      by (symmetry; apply orb_false_intro; apply Z.ltb_ge; lia).
    rewrite Hgl in Hread. injection Hread as <-. exact Hlen.
Qed.

Lemma readback_outcomes_witness :
  GPU.readback (Kernel.mk VNull VNull false true (-1, 2) (1, 1, 1) [1]) Sample.state
    = (Throw RangeError, Sample.state)
  /\ GPU.readback
       (Kernel.mk VNull (VHost 2) false true (67108864, 67108864) (1, 1, 1) [1])
       Sample.state
    = (Throw RangeError, Sample.state)
  /\ GPU.readback (Kernel.mk VNull VNull false true (1, 2) (1, 1, 1) [1]) Sample.state
    = (Throw TypeError, Sample.state).
Proof.
  split; [|split].
  - destruct (readback_outcomes
                (Kernel.mk VNull VNull false true (-1, 2) (1, 1, 1) [1]) Sample.state)
      as (_ & Hrange & _).
    apply Hrange. left. simpl. lia.
  - destruct (readback_outcomes
                (Kernel.mk VNull (VHost 2) false true (67108864, 67108864) (1, 1, 1) [1])
                Sample.state)
      as (_ & Hrange & _).
    apply Hrange. right. right. simpl. lia.
  - destruct (readback_outcomes
                (Kernel.mk VNull VNull false true (1, 2) (1, 1, 1) [1]) Sample.state)
      as (_ & _ & Hbad & _).
    apply Hbad; [unfold TypedArray.limit; simpl; lia | discriminate].
Defined.

(** X14.  After [combineKernels], a call of the combined callable reads the
    pixels through the context of the first listed kernel, with the sizes
    and the output format of the last one: if the combinator returns and
    leaves the last kernel as it is, and the runtime grants a buffer of
    [texSize[0] * texSize[1] * 4] elements, the result is the reshaping of
    that read-back. *)
Theorem combined_reads_first_context (invoke : value -> list value -> M value)
    (this : GPU.t) (m : string) (l0 lN c0 : nat) (rest : list nat)
    (k0 kN : Kernel.t) (f combined v : value) (args : list value)
    (σ σ' σ2 : State) :
  GPU.mode this σ = (Normal m, σ) ->
  m <> "cpu"%string ->
  kernels σ !! l0 = Some k0 ->
  Forall (fun l => is_Some (kernels σ !! l)) (l0 :: rest) ->
  last (l0 :: rest) = Some lN ->
  kernels σ !! lN = Some kN ->
  Kernel.webGl k0 = VHost c0 ->
  GPU.combineKernels this ((VKernel <$> l0 :: rest) ++ [f]) σ = (Normal combined, σ') ->
  GPU.apply invoke f args σ' = (Normal v, σ2) ->
  kernels σ2 !! lN = kernels σ' !! lN ->
  0 <= (Kernel.texSize kN).1 * (Kernel.texSize kN).2 * 4 <= TypedArray.limit σ2 ->
  let w := (Kernel.texSize kN).1 in
  let h := (Kernel.texSize kN).2 in
  let buffer :=
    if Kernel.floatOutput kN
    then TypedArray.fill (replicate (Z.to_nat (w * h * 4)) 0) (pixelsFloat σ2 c0 w h)
    else TypedArray.reinterpret
           (TypedArray.fill (replicate (Z.to_nat (w * h * 4)) Byte.x00)
              (pixelsBytes σ2 c0 w h)) in
  GPU.apply invoke combined args σ' =
    (Normal (GPU.reshape (Kernel.dimensions kN)
               (TypedArray.subarray buffer 0 (GPU.volume (Kernel.threadDim kN)))),
     σ2).
Proof.
  intros Hmode Hm Hk0 Hall Hlast HkN Hgl Hrun Happ Hkeep Hsize w h buffer.
  rewrite (combineKernels_run this m l0 lN rest k0 f σ) in Hrun by done.
  assert (Hc : combined = VCombined (closures σ) (VKernel lN) f) by congruence.
  assert (Hσ' : σ' = new_closure (with_kernels σ
            (configure_all (Kernel.canvas k0) (Kernel.webGl k0) (l0 :: rest)
               (kernels σ)))) by congruence.
  clear Hrun. subst combined σ'.
  assert (HlN : lN ∈ l0 :: rest).
  { rewrite last_lookup in Hlast. by eapply list_elem_of_lookup_2. }
  cbn [new_closure with_kernels kernels] in Hkeep.
  rewrite lookup_configure_all, decide_True, HkN in Hkeep by done.
  cbn [GPU.apply]. unfold bind at 1. rewrite Happ.
  unfold GPU.decode_last, KernelOps.kernel_of, KernelOps.deref.
  unfold bind at 1. rewrite Hkeep. cbn [fmap option_fmap option_map].
  unfold bind at 1. rewrite readback_eq. cbv zeta.
  unfold configured. cbn [Kernel.texSize Kernel.webGl Kernel.floatOutput
    Kernel.threadDim Kernel.dimensions].
  replace (((Kernel.texSize kN).1 * (Kernel.texSize kN).2 * 4 <? 0)
           || (TypedArray.limit σ2 <? (Kernel.texSize kN).1 * (Kernel.texSize kN).2 * 4))
    with false
    by (symmetry; apply orb_false_intro; apply Z.ltb_ge; lia).
  by rewrite Hgl.
Qed.

Lemma combined_reads_first_context_witness :
  GPU.apply Sample.idle (VCombined 0 (VKernel 1) (VFun 7)) []
    (new_closure
       (with_kernels Sample.state
          (configure_all (VHost 1) (VHost 2) [0; 1]%nat (kernels Sample.state)))) =
  (Normal (VArray [VFloats [100; 101; 102]; VFloats [103; 104; 105]]),
   new_closure
     (with_kernels Sample.state
        (configure_all (VHost 1) (VHost 2) [0; 1]%nat (kernels Sample.state)))).
Proof.
  apply (combined_reads_first_context Sample.idle Sample.webgl "gpu" 0%nat 1%nat
           2%nat [1%nat] Sample.kernelA Sample.kernelB (VFun 7)
           (VCombined 0 (VKernel 1) (VFun 7)) VUndefined [] Sample.state
           (new_closure
              (with_kernels Sample.state
                 (configure_all (VHost 1) (VHost 2) [0; 1]%nat (kernels Sample.state))))
           (new_closure
              (with_kernels Sample.state
                 (configure_all (VHost 1) (VHost 2) [0; 1]%nat (kernels Sample.state))))).
  - reflexivity.
  - discriminate.
  - reflexivity.
  - repeat constructor; eexists; reflexivity.
  - reflexivity.
  - reflexivity.
  - reflexivity.
  - reflexivity.
  - reflexivity.
  - reflexivity.
  - unfold TypedArray.limit. simpl. lia.
Defined.

Lemma subarray_from_0 {A} (a : list A) (n : Z) :
  TypedArray.subarray a 0 n =
  take (Z.to_nat (TypedArray.clamp (Z.of_nat (length a)) n)) a.
Proof.
  unfold TypedArray.subarray.
  assert (H0 : TypedArray.clamp (Z.of_nat (length a)) 0 = 0).
  { unfold TypedArray.clamp. replace (0 <? 0) with false by done. lia. }
  rewrite H0. change (Z.to_nat 0) with 0%nat. by rewrite drop_0, Z.sub_0_r.
Qed.

(** X15.  Whatever [threadDim] holds, the truncation of line 114 neither
    fails nor pads: what is reshaped is a prefix of the read-back, of
    [threadDim[0] * threadDim[1] * threadDim[2]] elements when the buffer
    has that many, the whole buffer when it has fewer, and, for a negative
    product, the buffer without that many trailing elements. *)
Theorem decode_last_reshapes_prefix (l : nat) (k : Kernel.t) (σ : State)
    (buffer : list f32) :
  kernels σ !! l = Some k ->
  GPU.readback k σ = (Normal buffer, σ) ->
  let n := GPU.volume (Kernel.threadDim k) in
  let len := Z.of_nat (length buffer) in
  exists truncated,
    GPU.decode_last (VKernel l) σ =
      (Normal (GPU.reshape (Kernel.dimensions k) truncated), σ)
    /\ truncated `prefix_of` buffer
    /\ (0 <= n -> Z.of_nat (length truncated) = Z.min n len)
    /\ (n < 0 -> Z.of_nat (length truncated) = Z.max (len + n) 0).
Proof.
  intros Hk Hread n len.
  exists (TypedArray.subarray buffer 0 n). split; [|split; [|split]].
  - unfold GPU.decode_last, KernelOps.kernel_of, KernelOps.deref, bind, ret.
    by rewrite Hk, Hread.
  - rewrite subarray_from_0. apply prefix_take.
  - intros Hn. rewrite subarray_from_0, length_take. unfold TypedArray.clamp.
    replace (n <? 0) with false by lia. fold len. lia.
  - intros Hn. rewrite subarray_from_0, length_take. unfold TypedArray.clamp.
    replace (n <? 0) with true by lia. fold len. lia.
Qed.

Lemma decode_last_reshapes_prefix_witness :
  exists truncated,
    GPU.decode_last (VKernel 0) Sample.state =
      (Normal (GPU.reshape [3] truncated), Sample.state)
    /\ truncated `prefix_of` [1; 2; 3; 4]
    /\ (0 <= 3 -> Z.of_nat (length truncated) = Z.min 3 4)
    /\ (3 < 0 -> Z.of_nat (length truncated) = Z.max (4 + 3) 0).
Proof.
  apply (decode_last_reshapes_prefix 0%nat Sample.kernelA Sample.state [1; 2; 3; 4]).
  - reflexivity.
  - reflexivity.
Defined.

(** ** The reshaping *)

(** X16.  The reshaping falls off the end of the function, giving
    [undefined], exactly when [dimensions] has none or more than three
    entries. *)
Theorem reshape_undefined_iff (dimensions : list Z) (result : list f32) :
  GPU.reshape dimensions result = VUndefined <->
  (length dimensions = 0 \/ 3 < length dimensions)%nat.
Proof.
  destruct dimensions as [|d0 [|d1 [|d2 [|d3 rest]]]]; cbn [GPU.reshape length];
    (split; [intros H; try discriminate H; lia | intros [H|H]; try lia; done]).
Qed.

Section Concat.
Local Open Scope nat_scope.
Context {A : Type}.

Lemma concat_chunks (n : nat) : 0 < n -> forall (fuel : nat) (l : list A),
  length l <= fuel -> concat (Utils.chunks fuel n l) = l.
Proof.
  intros Hn. induction fuel as [|fuel IH]; intros l Hl.
  - destruct l; [done | simpl in Hl; lia].
  - destruct l as [|x l]; [done|].
    change (Utils.chunks (S fuel) n (x :: l))
      with (take n (x :: l) :: Utils.chunks fuel n (drop n (x :: l))).
    cbn [concat]. rewrite IH; [apply take_drop|].
    rewrite length_drop. simpl in *. lia.
Qed.

Lemma concat_splitArray (l : list A) (part : Z) :
  (0 < part)%Z -> concat (Utils.splitArray l part) = l.
Proof. intros. unfold Utils.splitArray. apply concat_chunks; lia. Qed.

Lemma splitArray_rows_bounded (l : list A) (part : Z) :
  (0 < part)%Z ->
  Forall (fun row => (0 < Z.of_nat (length row) <= part)%Z) (Utils.splitArray l part).
Proof.
  intros Hp. apply Forall_lookup_2. intros j row.
  rewrite splitArray_lookup by done. case_decide as Hj; [|done].
  intros [= <-]. rewrite length_take, length_drop. lia.
Qed.

Lemma concat_concat_fmap (f : list A -> list (list A)) (ls : list (list A)) :
  (forall x, concat (f x) = x) -> concat (concat (f <$> ls)) = concat ls.
Proof.
  intros Hf. induction ls as [|x ls IH]; [done|].
  cbn [fmap list_fmap concat]. rewrite concat_app, Hf. f_equal. apply IH.
Qed.

End Concat.

(** X17.  The reshaping loses and repeats nothing, for a buffer of any
    length: the rows of a two-dimensional result, each non-empty and of at
    most [d0] elements, put end to end are the buffer, and so are the rows
    of all groups of a three-dimensional result.  The value of the last
    dimension is never read. *)
Theorem reshape_keeps_every_element (d0 d1 d2 : Z) (result : list f32) :
  0 < d0 ->
  (exists rows : list (list f32),
     GPU.reshape [d0; d1] result = VArray (VFloats <$> rows)
     /\ concat rows = result
     /\ Forall (fun row => 0 < Z.of_nat (length row) <= d0) rows)
  /\ (0 < d1 ->
      exists cube : list (list (list f32)),
        GPU.reshape [d0; d1; d2] result =
          VArray ((fun group => VArray (VFloats <$> group)) <$> cube)
        /\ concat (concat cube) = result
        /\ Forall (Forall (fun row => 0 < Z.of_nat (length row) <= d0)) cube).
Proof.
  intros H0. split.
  - exists (Utils.splitArray result d0). split; [done|].
    split; [by apply concat_splitArray | by apply splitArray_rows_bounded].
  - intros H1.
    exists ((fun x => Utils.splitArray x d0) <$> Utils.splitArray result (d0 * d1)).
    split; [|split].
    + cbn [GPU.reshape]. by rewrite <- list_fmap_compose.
    + rewrite concat_concat_fmap by (intros x; by apply concat_splitArray).
      apply concat_splitArray. lia.
    + apply Forall_fmap, Forall_forall. intros x _.
      by apply splitArray_rows_bounded.
Qed.

Lemma reshape_keeps_every_element_witness :
  (exists rows : list (list f32),
     GPU.reshape [3; 2] [1; 2; 3; 4; 5; 6; 7] = VArray (VFloats <$> rows)
     /\ concat rows = [1; 2; 3; 4; 5; 6; 7]
     /\ Forall (fun row => 0 < Z.of_nat (length row) <= 3) rows)
  /\ (0 < 2 ->
      exists cube : list (list (list f32)),
        GPU.reshape [3; 2; 9] [1; 2; 3; 4; 5; 6; 7] =
          VArray ((fun group => VArray (VFloats <$> group)) <$> cube)
        /\ concat (concat cube) = [1; 2; 3; 4; 5; 6; 7]
        /\ Forall (Forall (fun row => 0 < Z.of_nat (length row) <= 3)) cube).
Proof.
  apply (reshape_keeps_every_element 3 2 9 [1; 2; 3; 4; 5; 6; 7]). lia.
Defined.

(** ** The byte read-back *)

Lemma byteZ_range (b : Byte.byte) : 0 <= TypedArray.byteZ b < 256.
Proof.
  unfold TypedArray.byteZ. pose proof (Byte.to_N_bounded b). lia.
Qed.

Lemma byteZ_inj (b b' : Byte.byte) : TypedArray.byteZ b = TypedArray.byteZ b' -> b = b'.
Proof.
  unfold TypedArray.byteZ. intros H. apply N2Z.inj in H.
  pose proof (Byte.of_to_N b) as Hb. rewrite H, Byte.of_to_N in Hb. congruence.
Qed.

(** X18.  The floats of a byte read-back are a reinterpretation of its
    bytes and no numeric conversion: a byte sequence of [4 * n] bytes gives
    [n] floats, each a 32-bit pattern, and two such sequences that give the
    same floats are the same bytes. *)
Theorem reinterpret_keeps_bits (n : nat) (bytes bytes' : list Byte.byte) :
  length bytes = (4 * n)%nat ->
  length bytes' = (4 * n)%nat ->
  length (TypedArray.reinterpret bytes) = n
  /\ Forall (fun x => 0 <= x < 4294967296) (TypedArray.reinterpret bytes)
  /\ (TypedArray.reinterpret bytes = TypedArray.reinterpret bytes' -> bytes = bytes').
Proof.
  intros Hb Hb'. split; [by apply length_reinterpret|]. split.
  - clear Hb' bytes'. revert bytes Hb.
    induction n as [|n IH]; intros bytes Hb.
    + by destruct bytes.
    + destruct bytes as [|b0 [|b1 [|b2 [|b3 rest]]]]; simpl in Hb; try lia.
      cbn [TypedArray.reinterpret]. constructor; [|apply IH; lia].
      pose proof (byteZ_range b0). pose proof (byteZ_range b1).
      pose proof (byteZ_range b2). pose proof (byteZ_range b3). lia.
  - revert bytes bytes' Hb Hb'.
    induction n as [|n IH]; intros bytes bytes' Hb Hb' Heq.
    + destruct bytes, bytes'; done.
    + destruct bytes as [|b0 [|b1 [|b2 [|b3 rest]]]]; simpl in Hb; try lia.
      destruct bytes' as [|c0 [|c1 [|c2 [|c3 rest']]]]; simpl in Hb'; try lia.
      cbn [TypedArray.reinterpret] in Heq. injection Heq as Hhead Htail.
      pose proof (byteZ_range b0). pose proof (byteZ_range b1).
      pose proof (byteZ_range b2). pose proof (byteZ_range b3).
      pose proof (byteZ_range c0). pose proof (byteZ_range c1).
      pose proof (byteZ_range c2). pose proof (byteZ_range c3).
      assert (TypedArray.byteZ b0 = TypedArray.byteZ c0) by lia.
      assert (TypedArray.byteZ b1 = TypedArray.byteZ c1) by lia.
      assert (TypedArray.byteZ b2 = TypedArray.byteZ c2) by lia.
      assert (TypedArray.byteZ b3 = TypedArray.byteZ c3) by lia.
      f_equal; [by apply byteZ_inj|]. f_equal; [by apply byteZ_inj|].
      f_equal; [by apply byteZ_inj|]. f_equal; [by apply byteZ_inj|].
      apply IH; [lia | lia | done].
Qed.

Lemma reinterpret_keeps_bits_witness :
  length (TypedArray.reinterpret Sample.bytes16) = 4%nat
  /\ Forall (fun x => 0 <= x < 4294967296) (TypedArray.reinterpret Sample.bytes16)
  /\ (TypedArray.reinterpret Sample.bytes16 = TypedArray.reinterpret Sample.bytes16 ->
      Sample.bytes16 = Sample.bytes16).
Proof.
  apply (reinterpret_keeps_bits 4 Sample.bytes16 Sample.bytes16); reflexivity.
Defined.

(** ** Where each element of the buffer goes *)

Section Indexing.
Local Open Scope nat_scope.
Context {A : Type}.

(** Row [y] of a split in rows of [n] holds at [x] the element [x + n * y]. *)
Lemma chunks_lookup_lookup (n : nat) (l : list A) (x y : nat) :
  0 < n -> x < n ->
  Utils.chunks (length l) n l !! y ≫= (fun row => row !! x) = l !! (x + n * y).
Proof.
  intros Hn Hx. rewrite chunks_lookup by lia.
  case_decide as Hy.
  - cbn [mbind option_bind]. rewrite lookup_take_lt, lookup_drop by done.
    f_equal. lia.
  - cbn [mbind option_bind]. symmetry. apply lookup_ge_None. nia.
Qed.

Lemma slab_lookup (n0 n1 : nat) (l : list A) (x y z : nat) :
  0 < n0 -> x < n0 -> y < n1 ->
  take (n0 * n1) (drop (z * (n0 * n1)) l) !! (x + n0 * y) =
  l !! (x + n0 * (y + n1 * z)).
Proof.
  intros Hn Hx Hy.
  assert (n0 * S y <= n0 * n1) by (apply Nat.mul_le_mono_l; lia).
  rewrite lookup_take_lt, lookup_drop by lia. f_equal. lia.
Qed.

End Indexing.

(** X19.  The reshaping keeps the order of the dimensions, for a buffer of
    any length: in a two-dimensional result the element at row [y], place
    [x] is the element [x + d0 * y] of the buffer, and in a
    three-dimensional result the element at group [z], row [y], place [x]
    is the element [x + d0 * (y + d1 * z)]; it is absent exactly when the
    buffer is too short to have that element. *)
Theorem reshape_index (d0 d1 d2 : Z) (result : list f32) :
  0 < d0 ->
  (exists rows : list (list f32),
     GPU.reshape [d0; d1] result = VArray (VFloats <$> rows)
     /\ forall x y : nat, Z.of_nat x < d0 ->
          rows !! y ≫= (fun row : list f32 => row !! x) =
          result !! (x + Z.to_nat d0 * y)%nat)
  /\ (0 < d1 ->
      exists cube : list (list (list f32)),
        GPU.reshape [d0; d1; d2] result =
          VArray ((fun group => VArray (VFloats <$> group)) <$> cube)
        /\ forall x y z : nat, Z.of_nat x < d0 -> Z.of_nat y < d1 ->
             (cube !! z ≫= (fun group : list (list f32) => group !! y))
               ≫= (fun row : list f32 => row !! x) =
             result !! (x + Z.to_nat d0 * (y + Z.to_nat d1 * z))%nat).
Proof.
  intros H0. split.
  - exists (Utils.splitArray result d0). split; [done|].
    intros x y Hx. unfold Utils.splitArray. apply chunks_lookup_lookup; lia.
  - intros H1.
    exists ((fun s => Utils.splitArray s d0) <$> Utils.splitArray result (d0 * d1)).
    split; [cbn [GPU.reshape]; by rewrite <- list_fmap_compose|].
    intros x y z Hx Hy.
    rewrite list_lookup_fmap, splitArray_lookup by lia.
    rewrite Z2Nat.inj_mul by lia.
    set (n0 := Z.to_nat d0). set (n1 := Z.to_nat d1).
    assert (n0 * S y <= n0 * n1)%nat by (apply Nat.mul_le_mono_l; lia).
    case_decide as Hz.
    + cbn [fmap option_fmap option_map mbind option_bind].
      unfold Utils.splitArray. fold n0.
      rewrite chunks_lookup_lookup by lia. apply slab_lookup; lia.
    + cbn [fmap option_fmap option_map mbind option_bind].
      symmetry. apply lookup_ge_None. nia.
Qed.

Lemma reshape_index_witness :
  (exists rows : list (list f32),
     GPU.reshape [3; 2] (seqZ 10 5) = VArray (VFloats <$> rows)
     /\ forall x y : nat, Z.of_nat x < 3 ->
          rows !! y ≫= (fun row : list f32 => row !! x) =
          seqZ 10 5 !! (x + Z.to_nat 3 * y)%nat)
  /\ (0 < 2 ->
      exists cube : list (list (list f32)),
        GPU.reshape [3; 2; 2] (seqZ 10 5) =
          VArray ((fun group => VArray (VFloats <$> group)) <$> cube)
        /\ forall x y z : nat, Z.of_nat x < 3 -> Z.of_nat y < 2 ->
             (cube !! z ≫= (fun group : list (list f32) => group !! y))
               ≫= (fun row : list f32 => row !! x) =
             seqZ 10 5 !! (x + Z.to_nat 3 * (y + Z.to_nat 2 * z))%nat).
Proof.
  apply (reshape_index 3 2 2 (seqZ 10 5)). lia.
Defined.

(** ** [addFunction] *)

(** X20.  On a constructed facade [addFunction] does not fail by itself and
    checks nothing: it registers the function with the runner's compiler
    under the name [null], with the three arguments as given, and returns
    the facade itself, so that calls can be chained; it throws only what the
    registration throws. *)
Theorem addFunction_registers_and_returns_this
    (functionBuilder_addFunction : Runner.t -> value -> value -> value -> value -> M unit)
    (isWebGlSupported : bool) (settings : option GPU.settings)
    (σ0 σ1 σ : State) (this : GPU.t) (jsFunction paramTypes returnType : value) :
  GPU.constructor isWebGlSupported settings σ0 = (Normal this, σ1) ->
  exists r, GPU._runner this = Some r
    /\ GPU.addFunction functionBuilder_addFunction this jsFunction paramTypes
         returnType σ =
       match functionBuilder_addFunction r VNull jsFunction paramTypes returnType σ with
       | (Normal _, σ') => (Normal this, σ')
       | (Throw e, σ') => (Throw e, σ')
       end.
Proof.
  intros Hnew.
  destruct (constructor_result _ _ _ _ _ Hnew)
    as (_ & _ & _ & (r & Hr & _) & _).
  exists r. split; [done|].
  unfold GPU.addFunction, GPU.runner. rewrite Hr. unfold bind, ret.
  by destruct (functionBuilder_addFunction r VNull jsFunction paramTypes
                 returnType σ) as [[[]|e] σ'].
Qed.

Lemma addFunction_registers_and_returns_this_witness :
  exists r, GPU._runner Sample.webgl = Some r
    /\ GPU.addFunction Sample.builder Sample.webgl VUndefined VNull VNull Sample.state =
       match Sample.builder r VNull VUndefined VNull VNull Sample.state with
       | (Normal _, σ') => (Normal Sample.webgl, σ')
       | (Throw e, σ') => (Throw e, σ')
       end.
Proof.
  apply (addFunction_registers_and_returns_this Sample.builder true None
           Sample.state Sample.state Sample.state Sample.webgl VUndefined VNull VNull).
  reflexivity.
Defined.
